(** * AIMaintain+ dashboard: the data-source adapters, the provider selector,
      the session bootstrap and the polling loop of [src/index.tsx]

    The development embeds the parts of [index.tsx] that carry behaviour:
    [MockAdapter] (lines 47-106), [getBackend] (155-158), the submit handler
    of [AuthScreen] (303-339), [SettingsPanel.toggleBackend] (592-601), the
    data polling effect of [DashboardScreen] (675-697) and the session
    effect, [handleLoginSuccess], [handleLogout] and the rendering choice of
    [App] (792-855). The HTTP calls of [LiveAdapter] (109-152) are not
    embedded: the adapter appears as the object [getBackend] may return, and
    its promises as the settlements a component receives. Markup and styling
    are left out.

    JavaScript values are modelled as the program has them: a [number] is an
    IEEE 754 binary64 value ([spec_float] with 53 bits of precision, rounded
    to nearest even), a string is its sequence of UTF-16 code units,
    [localStorage] is a finite map from strings to strings, a promise is the
    way it settles, and an [async] function is the sequence of its runs
    between two [await]s. *)

From Stdlib Require Import ZArith Lia Bool List Ascii String.
From Stdlib Require Import Floats.SpecFloat.
From stdpp Require Import base option list gmap strings.

Local Open Scope Z_scope.

(** ** JavaScript numbers *)

Module JS.

Definition prec : Z := 53.
Definition emax : Z := 1024.

(** A JavaScript [number]. *)
Definition number : Type := spec_float.

(** The double denoted by an integer literal of the source. *)
Definition lit (z : Z) : number := binary_normalize prec emax z 0 false.

(** [x * y] and [x + y] on numbers. *)
Definition mul (x y : number) : number := SFmul prec emax x y.
Definition add (x y : number) : number := SFadd prec emax x y.

(** The comparisons [x <= y] and [x < y]. *)
Definition leb (x y : number) : bool := SFleb x y.
Definition ltb (x y : number) : bool := SFltb x y.

(** [Math.floor]: the largest integer not above [x]; zeros, infinities, NaN
    and numbers with a non-negative exponent are integers already or are
    returned as they are. A positive number below one floors to [+0]. *)
Definition Math_floor (x : number) : number :=
  match x with
  | S754_finite s m e =>
      if 0 <=? e then x
      else binary_normalize prec emax (cond_Zopp s (Zpos m) / 2 ^ (- e)) 0 s
  | _ => x
  end.

(** What [Math.random()] may return: a binary64 number of positive sign,
    at least 0 and below 1. *)
Definition is_random (r : number) : bool :=
  match r with
  | S754_zero false => true
  | S754_finite false m e => bounded prec emax m e && ltb r (lit 1)
  | _ => false
  end.

(** *** Strings: sequences of UTF-16 code units *)

Definition code_unit : Type := N.
Definition jsstring : Type := list code_unit.

(** The JavaScript string written by an ASCII literal of the source. *)
Fixpoint js (s : string) : jsstring :=
  match s with
  | EmptyString => []
  | String c s' => N_of_ascii c :: js s'
  end.

(** [s.length] *)
Definition length (s : jsstring) : Z := Z.of_nat (List.length s).

(** [s.startsWith(p)], the helper of [includes]. *)
Fixpoint startsWith (s p : jsstring) {struct p} : bool :=
  match p, s with
  | [], _ => true
  | _ :: _, [] => false
  | c :: p', d :: s' => N.eqb c d && startsWith s' p'
  end.

(** [s.includes(p)]: [p] occurs in [s] as a run of consecutive code units. *)
Fixpoint includes (s p : jsstring) : bool :=
  startsWith s p ||
  match s with
  | [] => false
  | _ :: s' => includes s' p
  end.

(** [s.split(sep)] for a separator of one code unit. *)
Fixpoint split (s : jsstring) (sep : code_unit) : list jsstring :=
  match s with
  | [] => [[]]
  | c :: s' =>
      if N.eqb c sep then [] :: split s' sep
      else match split s' sep with
           | piece :: pieces => (c :: piece) :: pieces
           | [] => [[c]]
           end
  end.

(** [a[0]] on an array of strings; [split] never returns an empty array. *)
Definition first (a : list jsstring) : jsstring := List.hd [] a.

(** [s.substr(start, len)] for non-negative arguments. *)
Definition substr (s : jsstring) (start len : nat) : jsstring :=
  take len (drop start s).

(** Truthiness of a [string | null]: [null] and the empty string are falsy. *)
Definition truthy (v : option jsstring) : bool :=
  match v with
  | Some (_ :: _) => true
  | _ => false
  end.

(** [String(b)] for a boolean. *)
Definition String_of_bool (b : bool) : jsstring :=
  if b then js "true" else js "false".

(** The two built-ins whose tables are the engine's: [toUpperCase], and
    [toString(36)] on a number. *)
Class Builtins := {
  toUpperCase : jsstring -> jsstring;
  toString36 : number -> jsstring
}.

(** An instance to run examples with. [toUpperCase] maps the ASCII letters,
    which is what the built-in does on strings of code units below 128.
    [toString36] writes the integer part and at most eleven digits of the
    fraction in radix 36 (the standard leaves the precise digits of a
    non-decimal expansion to the engine). *)
Definition upper_unit (c : code_unit) : code_unit :=
  if (97 <=? c)%N && (c <=? 122)%N then (c - 32)%N else c.

Definition digit36 (d : Z) : code_unit :=
  Z.to_N (if d <? 10 then 48 + d else 87 + d).

Fixpoint int36 (fuel : nat) (n : Z) : jsstring :=
  match fuel with
  | O => []
  | S fuel' =>
      if n <? 36 then [digit36 n]
      else int36 fuel' (n / 36) ++ [digit36 (n mod 36)]
  end.

Fixpoint frac36 (fuel : nat) (num den : Z) : jsstring :=
  match fuel with
  | O => []
  | S fuel' =>
      if num =? 0 then []
      else digit36 (36 * num / den) :: frac36 fuel' (36 * num mod den) den
  end.

Definition radix36 (x : number) : jsstring :=
  match x with
  | S754_finite false m e =>
      if 0 <=? e then int36 256 (Zpos m * 2 ^ e)
      else
        let den := 2 ^ (- e) in
        int36 256 (Zpos m / den) ++
        match frac36 11 (Zpos m mod den) den with
        | [] => []
        | ds => js "." ++ ds
        end
  | _ => js "0"
  end.

Definition ascii_builtins : Builtins :=
  {| toUpperCase := map upper_unit; toString36 := radix36 |}.

End JS.

Import JS.

(** ** Data model (lines 11-31) *)

Inductive Role := ADMIN | OPERATOR.

Record UserProfile := {
  id : jsstring;
  name : jsstring;
  email : jsstring;
  role : Role
}.

Inductive DeviceStatus := ONLINE | OFFLINE | ERROR | MAINTENANCE.

(** The fields [id] and [name] of a device are [dev_id] and [dev_name]. *)
Record Device := {
  dev_id : jsstring;
  dev_name : jsstring;
  ip : jsstring;
  status : DeviceStatus;
  cpu_load : number;
  temp : number;
  uptime : jsstring
}.

(** The objects that [fetchSystemStats] and [fetchLogs] return are typed [any]
    in the source; these records are the shapes [MockAdapter] builds. *)
Record SystemStats := {
  cpu : number;
  memory : number;
  network : number;
  activeNodes : number
}.

(** The level ['ERROR'] is [LERROR] here, [ERROR] being the device status. *)
Inductive LogLevel := INFO | SUCCESS | WARN | LERROR.

Record LogEntry := {
  log_id : number;
  time : jsstring;
  level : LogLevel;
  message : jsstring;
  source : jsstring
}.

Inductive ViewState := AUTH | DASHBOARD.

(** [new Error(msg)] *)
Record Error := { err_message : jsstring }.

(** How a promise settles. *)
Inductive settled (A : Type) :=
| Fulfilled (v : A)
| Rejected (e : Error).
Arguments Fulfilled {A} v.
Arguments Rejected {A} e.

(** A promise of the adapters: the time it stays pending, in milliseconds of
    [setTimeout], and the way it settles. *)
Record Promise (A : Type) := {
  delay : Z;
  outcome : settled A
}.
Arguments delay {A} _.
Arguments outcome {A} _.

Record AuthResponse := {
  token : jsstring;
  user : UserProfile
}.

(** ** [Math.random]: a state monad over the supply of random numbers *)

(** The numbers that the successive calls of [Math.random()] return. *)
Definition Rng : Type := nat -> number.

Definition Rand (A : Type) : Type := Rng -> A * Rng.

#[global] Instance Rand_ret : MRet Rand := fun A (x : A) g => (x, g).
#[global] Instance Rand_bind : MBind Rand :=
  fun A B (k : A -> Rand B) (c : Rand A) g => let '(x, g') := c g in k x g'.

Definition Math_random : Rand number := fun g => (g O, fun n => g (S n)).

(** ** 1. Mock Adapter (lines 47-106) *)

Module MockAdapter.
Section WithBuiltins.
Context {B : Builtins}.

(** [login] (lines 48-66). The two [Math.random()] calls are made only when the
    credentials pass, the token's first. *)
Definition login (email password : jsstring) : Rand (Promise AuthResponse) :=
  if includes email (js "@") && (8 <=? JS.length password) then
    r1 ← Math_random;
    r2 ← Math_random;
    mret {| delay := 1000;
            outcome := Fulfilled {|
              token := js "mock-jwt-token-" ++ toString36 r1;
              user := {| id := js "usr_" ++ substr (toString36 r2) 2 9;
                         name := toUpperCase (first (split email 64%N));
                         email := email;
                         role := if includes email (js "admin")
                                 then ADMIN else OPERATOR |} |} |}
  else
    mret {| delay := 1000;
            outcome := Rejected {| err_message := js "INVALID CREDENTIALS" |} |}.

(** [register] (lines 67-81) *)
Definition register (email password fullName : jsstring)
  : Rand (Promise AuthResponse) :=
  r1 ← Math_random;
  r2 ← Math_random;
  mret {| delay := 1500;
          outcome := Fulfilled {|
            token := js "mock-jwt-token-" ++ toString36 r1;
            user := {| id := js "usr_" ++ substr (toString36 r2) 2 9;
                       name := toUpperCase fullName;
                       email := email;
                       role := OPERATOR |} |} |}.

End WithBuiltins.

(** [fetchSystemStats] (lines 82-89) *)
Definition fetchSystemStats : Rand (Promise SystemStats) :=
  r1 ← Math_random;
  r2 ← Math_random;
  r3 ← Math_random;
  mret {| delay := 0;
          outcome := Fulfilled {|
            cpu := add (lit 42) (Math_floor (mul r1 (lit 15)));
            memory := add (lit 64) (Math_floor (mul r2 (lit 10)));
            network := add (lit 120) (Math_floor (mul r3 (lit 50)));
            activeNodes := lit 24 |} |}.

Definition log (i : Z) (t : string) (l : LogLevel) (m src : string) : LogEntry :=
  {| log_id := lit i; time := js t; level := l; message := js m; source := js src |}.

(** [fetchLogs] (lines 90-98) *)
Definition fetchLogs : Promise (list LogEntry) :=
  {| delay := 0;
     outcome := Fulfilled [
       log 1 "10:42:05" INFO "System startup sequence initiated." "KERNEL";
       log 2 "10:42:08" SUCCESS "Database connection established (MySQL)." "DB_SHARD_01";
       log 3 "10:45:12" WARN "High latency detected on Node-04." "NET_WATCH";
       log 4 "10:48:30" LERROR "Auth handshake failed: IP 192.168.1.44" "SEC_GATE";
       log 5 "10:50:01" INFO "Routine maintenance task scheduled." "SCHEDULER";
       log 6 "10:51:15" INFO "API Gateway health check passed." "API_GW";
       log 7 "10:52:20" WARN "Memory usage spike detected in container #442." "DOCKER"
     ] |}.

Definition device (i n a : string) (st : DeviceStatus) (load t : Z) (up : string)
  : Device :=
  {| dev_id := js i; dev_name := js n; ip := js a; status := st;
     cpu_load := lit load; temp := lit t; uptime := js up |}.

(** [fetchDevices] (lines 99-105) *)
Definition fetchDevices : Promise (list Device) :=
  {| delay := 0;
     outcome := Fulfilled [
       device "DEV-001" "Main Server Alpha" "192.168.1.10" ONLINE 45 62 "14d 2h";
       device "DEV-002" "Backup Node B" "192.168.1.11" ONLINE 12 45 "4d 12h";
       device "DEV-003" "Edge Gateway" "192.168.1.20" ERROR 98 85 "0d 4h";
       device "DEV-004" "Analytics Engine" "192.168.1.25" MAINTENANCE 0 20 "0d 0h";
       device "DEV-005" "Storage Cluster" "192.168.1.30" ONLINE 56 58 "45d 1h"
     ] |}.

End MockAdapter.

(** ** The two adapter objects and the operations of [BackendService] *)

(** [getBackend] returns a reference to one of the two adapter objects of the
    module (lines 47 and 109). *)
Inductive BackendService := MockAdapter | LiveAdapter.

Inductive Operation :=
| OpLogin | OpRegister | OpFetchSystemStats | OpFetchLogs | OpFetchDevices.

(** What the components do besides updating their own state: calls of an
    adapter's operation, of the setters of the two polled view states, of
    [console.error], and of the interval functions. *)
Inductive Effect :=
| Invoke (api : BackendService) (op : Operation)
| SetStats (s : SystemStats)
| SetLogs (l : list LogEntry)
| ConsoleError (e : Error)
| SetInterval (ms : Z)
| ClearInterval.

(** ** [localStorage] *)

Abbreviation Storage := (gmap jsstring jsstring).

Definition getItem (ls : Storage) (k : jsstring) : option jsstring := ls !! k.
Definition setItem (ls : Storage) (k v : jsstring) : Storage := <[k:=v]> ls.
Definition removeItem (ls : Storage) (k : jsstring) : Storage := delete k ls.

(** ** Data Provider (lines 155-158) *)

Definition getBackend (ls : Storage) : BackendService :=
  let useLive :=
    bool_decide (getItem ls (js "use_live_backend") = Some (js "true")) in
  if useLive then LiveAdapter else MockAdapter.

(** ** [SettingsPanel] (lines 592-601) *)

Module SettingsPanel.

Record State := { useLive : bool }.

(** [useState(localStorage.getItem('use_live_backend') === 'true')] *)
Definition mount (ls : Storage) : State :=
  {| useLive :=
       bool_decide (getItem ls (js "use_live_backend") = Some (js "true")) |}.

(** [toggleBackend]. [window.location.reload()] ends the page; the storage
    returned is what the reloaded page starts from. *)
Definition toggleBackend (st : State) (ls : Storage) : State * Storage :=
  let newValue := negb (useLive st) in
  ({| useLive := newValue |},
   setItem ls (js "use_live_backend") (String_of_bool newValue)).

End SettingsPanel.

(** ** [App] (lines 792-855) and the submit handler of [AuthScreen] *)

Module App.

Record State := {
  view : ViewState;
  user : option UserProfile;
  isInitializing : bool
}.

(** The page: the storage, the state of [App], and what it has done. *)
Record Page := {
  storage : Storage;
  app : State;
  trace : list Effect
}.

(** The three [useState] initial values (lines 793-795). *)
Definition initial : State :=
  {| view := AUTH; user := None; isInitializing := true |}.

Definition load (ls : Storage) : Page :=
  {| storage := ls; app := initial; trace := [] |}.

(** The profile of lines 805-810. *)
Definition restored : UserProfile :=
  {| id := js "usr_restored"; name := js "OPERATOR";
     email := js "session@restored"; role := OPERATOR |}.

(** The callback given to [setTimeout] (lines 803-813). *)
Definition restore (p : Page) : Page :=
  {| storage := storage p;
     app := {| view := DASHBOARD; user := Some restored; isInitializing := false |};
     trace := trace p |}.

(** The session effect (lines 797-817): the page after it ran, and the delay
    of the timer it set, if any. *)
Definition effect (p : Page) : Page * option Z :=
  let token := getItem (storage p) (js "token") in
  if truthy token then (p, Some 800)
  else ({| storage := storage p;
           app := {| view := view (app p); user := user (app p);
                     isInitializing := false |};
           trace := trace p |}, None).

(** Bootstrap: the page is loaded, the effect runs, and its timer, if one
    was set, fires. *)
Definition bootstrap (ls : Storage) : Page :=
  match effect (load ls) with
  | (p, Some _) => restore p
  | (p, None) => p
  end.

(** [handleLoginSuccess] (lines 819-822) *)
Definition handleLoginSuccess (userData : UserProfile) (p : Page) : Page :=
  {| storage := storage p;
     app := {| view := DASHBOARD; user := Some userData;
               isInitializing := isInitializing (app p) |};
     trace := trace p |}.

(** [handleLogout] (lines 824-828) *)
Definition handleLogout (p : Page) : Page :=
  {| storage := removeItem (storage p) (js "token");
     app := {| view := AUTH; user := None;
               isInitializing := isInitializing (app p) |};
     trace := trace p |}.

(** What [App] renders (lines 830-854). *)
Inductive Screen :=
| Loading
| ShowAuthScreen
| ShowDashboardScreen (u : UserProfile)
| Blank.

Definition render (st : State) : Screen :=
  if isInitializing st then Loading
  else match view st with
       | AUTH => ShowAuthScreen
       | DASHBOARD =>
           match user st with
           | Some u => ShowDashboardScreen u
           | None => Blank
           end
       end.

End App.

Module AuthScreen.

Record FormData := {
  fullName : jsstring;
  email : jsstring;
  password : jsstring;
  confirmPassword : jsstring
}.

Definition falsy (s : jsstring) : bool := negb (truthy (Some s)).

(** The checks of lines 308-319: some field is in error. *)
Definition hasErrors (isLogin : bool) (f : FormData) : bool :=
  falsy (email f)
  || (isLogin && falsy (password f))
  || (negb isLogin &&
      (falsy (fullName f)
       || negb (bool_decide (password f = confirmPassword f)))).

(** [handleSubmit] (lines 303-339), given how the promise of [api.login] or
    [api.register] settles: the page afterwards, and the profile that
    [onLoginSuccess] is called with 800 ms later, if any. *)
Definition handleSubmit (isLogin : bool) (f : FormData)
    (response : settled AuthResponse) (p : App.Page)
  : App.Page * option UserProfile :=
  if hasErrors isLogin f then (p, None)
  else
    let api := getBackend (App.storage p) in
    let called :=
      App.trace p ++ [Invoke api (if isLogin then OpLogin else OpRegister)] in
    match response with
    | Fulfilled r =>
        ({| App.storage := setItem (App.storage p) (js "token") (token r);
            App.app := App.app p;
            App.trace := called |}, Some (user r))
    | Rejected _ =>
        ({| App.storage := App.storage p; App.app := App.app p;
            App.trace := called |}, None)
    end.

End AuthScreen.

(** ** [DashboardScreen]: the data polling effect (lines 675-697) *)

Module DashboardScreen.

(** The [await] at which a call of [fetchData] is suspended. *)
Inductive Await := AwaitStats | AwaitLogs.

(** The settling of the promise a call is waiting for. *)
Inductive Settlement :=
| StatsSettled (r : settled SystemStats)
| LogsSettled (r : settled (list LogEntry)).

Record State := {
  stats : SystemStats;
  logs : list LogEntry;
  backend : BackendService;
  (** the interval set at line 695 has not been cleared *)
  interval : bool;
  (** the calls of [fetchData] that are suspended, oldest first *)
  pending : list Await;
  trace : list Effect
}.

Definition emit (e : Effect) (d : State) : State :=
  {| stats := stats d; logs := logs d; backend := backend d;
     interval := interval d; pending := pending d;
     trace := trace d ++ [e] |}.

Definition setStats (s : SystemStats) (d : State) : State :=
  emit (SetStats s)
    {| stats := s; logs := logs d; backend := backend d;
       interval := interval d; pending := pending d; trace := trace d |}.

Definition setLogs (l : list LogEntry) (d : State) : State :=
  emit (SetLogs l)
    {| stats := stats d; logs := l; backend := backend d;
       interval := interval d; pending := pending d; trace := trace d |}.

Definition with_pending (ps : list Await) (d : State) : State :=
  {| stats := stats d; logs := logs d; backend := backend d;
     interval := interval d; pending := ps; trace := trace d |}.

Definition with_interval (b : bool) (d : State) : State :=
  {| stats := stats d; logs := logs d; backend := backend d;
     interval := b; pending := pending d; trace := trace d |}.

(** How a run of [fetchData] stops: at an [await], by returning, or by
    throwing. *)
Inductive Completion :=
| Suspend (k : Await)
| Return
| Throw (e : Error).

(** A call of [fetchData] up to its first [await] (line 685). *)
Definition fetchData (d : State) : State :=
  let d := emit (Invoke (backend d) OpFetchSystemStats) d in
  with_pending (pending d ++ [AwaitStats]) d.

(** The [try] block (lines 685-688) resumed at the await [k] with the
    settlement [r]; an [await] of a rejected promise throws. A promise
    settles with a value of its own operation. *)
Definition try_block (k : Await) (r : Settlement) (d : State)
  : option (State * Completion) :=
  match k, r with
  | AwaitStats, StatsSettled (Fulfilled s) =>
      let d := setStats s d in
      let d := emit (Invoke (backend d) OpFetchLogs) d in
      Some (d, Suspend AwaitLogs)
  | AwaitStats, StatsSettled (Rejected e) => Some (d, Throw e)
  | AwaitLogs, LogsSettled (Fulfilled l) => Some (setLogs l d, Return)
  | AwaitLogs, LogsSettled (Rejected e) => Some (d, Throw e)
  | _, _ => None
  end.

(** [try { ... } catch (e) { console.error("Sync failed", e) }]
    (lines 684-691) *)
Definition resume (k : Await) (r : Settlement) (d : State)
  : option (State * Completion) :=
  match try_block k r d with
  | Some (d', Throw e) => Some (emit (ConsoleError e) d', Return)
  | other => other
  end.

(** The state a freshly rendered [DashboardScreen] has (lines 677-679). *)
Definition initial (ls : Storage) : State :=
  {| stats := {| cpu := lit 0; memory := lit 0; network := lit 0;
                 activeNodes := lit 0 |};
     logs := [];
     backend := getBackend ls;
     interval := false;
     pending := [];
     trace := [] |}.

(** The effect (lines 694-695): [fetchData()], then [setInterval]. *)
Definition mount (ls : Storage) : State :=
  emit (SetInterval 3000) (with_interval true (fetchData (initial ls))).

(** The cleanup (line 696). *)
Definition cleanup (d : State) : State :=
  emit ClearInterval (with_interval false d).

(** What can happen to a mounted dashboard: the interval fires, the promise
    that the [i]-th suspended call waits for settles, the view is
    deactivated. *)
Inductive Event :=
| Tick
| Settle (i : nat) (r : Settlement)
| Unmount.

(** One event; [None] when the event cannot happen in that state: a cleared
    interval does not fire, and only a suspended call can be resumed. A call
    that returns leaves the list, one that threw would too. *)
Definition step (d : State) (ev : Event) : option State :=
  match ev with
  | Tick => if interval d then Some (fetchData d) else None
  | Settle i r =>
      match pending d !! i with
      | None => None
      | Some k =>
          match resume k r d with
          | None => None
          | Some (d', Suspend k') => Some (with_pending (<[i:=k']> (pending d')) d')
          | Some (d', _) => Some (with_pending (delete i (pending d')) d')
          end
      end
  | Unmount => if interval d then Some (cleanup d) else None
  end.

Fixpoint run (d : State) (evs : list Event) : option State :=
  match evs with
  | [] => Some d
  | ev :: evs' =>
      match step d ev with
      | None => None
      | Some d' => run d' evs'
      end
  end.

End DashboardScreen.

(** ** 2. Live Adapter (lines 109-152) *)

Definition API_URL : jsstring := js "http://localhost:5000/api".

Inductive Method := GET | POST.

(** The arguments of a call of [fetch]. *)
Record Request := {
  url : jsstring;
  method : Method;
  headers : list (jsstring * jsstring);
  body : option jsstring
}.

(** What the adapter reads of a response: [res.ok], and how the promise of
    [res.json()] settles. The body is not validated, so its type is the
    caller's. *)
Record Response (A : Type) := {
  ok : bool;
  json : settled A
}.
Arguments ok {A} _.
Arguments json {A} _.

(** The network: how the promise of [fetch] settles for a request. *)
Definition Network (A : Type) : Type := Request -> settled (Response A).

(** [JSON.stringify] on an object whose fields, in order, hold strings. *)
Class Json := {
  JSON_stringify : list (jsstring * jsstring) -> jsstring
}.

(** A [string | null] inside a template literal. *)
Definition interpolate (v : option jsstring) : jsstring :=
  match v with
  | Some s => s
  | None => js "null"
  end.

Module LiveAdapter.

(** [if (!res.ok) throw new Error(msg); return res.json();] after the
    [await] of [fetch], which throws what [fetch] rejected with. *)
Definition answer {A : Type} (msg : string) (r : settled (Response A))
  : settled A :=
  match r with
  | Rejected e => Rejected e
  | Fulfilled res =>
      if negb (ok res) then Rejected {| err_message := js msg |}
      else json res
  end.

Definition post (path : string) (fields : list (jsstring * jsstring)) `{Json}
  : Request :=
  {| url := API_URL ++ js path;
     method := POST;
     headers := [(js "Content-Type", js "application/json")];
     body := Some (JSON_stringify fields) |}.

(** The request of the three reads: the token is read from the storage when
    the operation is called. *)
Definition get (ls : Storage) (path : string) : Request :=
  let token := getItem ls (js "token") in
  {| url := API_URL ++ js path;
     method := GET;
     headers := [(js "Authorization", js "Bearer " ++ interpolate token)];
     body := None |}.

Section WithJson.
Context {J : Json}.

(** [login] (lines 110-118) *)
Definition login (email password : jsstring) (net : Network AuthResponse)
  : settled AuthResponse :=
  let res := net (post "/auth/login"
                    [(js "email", email); (js "password", password)]) in
  answer "Login Failed" res.

(** [register] (lines 119-127) *)
Definition register (email password fullName : jsstring)
    (net : Network AuthResponse) : settled AuthResponse :=
  let res := net (post "/auth/register"
                    [(js "email", email); (js "password", password);
                     (js "full_name", fullName)]) in
  answer "Registration Failed" res.

End WithJson.

(** [fetchSystemStats] (lines 128-135) *)
Definition fetchSystemStats (ls : Storage) (net : Network SystemStats)
  : settled SystemStats :=
  answer "Stats fetch failed" (net (get ls "/system/stats")).

(** [fetchLogs] (lines 136-143) *)
Definition fetchLogs (ls : Storage) (net : Network (list LogEntry))
  : settled (list LogEntry) :=
  answer "Logs fetch failed" (net (get ls "/system/logs")).

(** [fetchDevices] (lines 144-151) *)
Definition fetchDevices (ls : Storage) (net : Network (list Device))
  : settled (list Device) :=
  answer "Devices fetch failed" (net (get ls "/devices")).

End LiveAdapter.

(** ** [PasswordStrengthMeter] (lines 264-288) *)

Module PasswordStrengthMeter.

(** [/\d/]: a code unit of one of the ten ASCII digits. *)
Definition is_digit (c : code_unit) : bool := (48 <=? c)%N && (c <=? 57)%N.

(** The characters of the class of line 266; the double quote is unit 34. *)
Definition specials : jsstring :=
  js "!@#$%^&*(),.?" ++ [34%N] ++ js ":{}|<>".

Definition is_special (c : code_unit) : bool := existsb (N.eqb c) specials.

(** [re.test(s)] for a regular expression of one character class. *)
Definition test (class : code_unit -> bool) (s : jsstring) : bool :=
  existsb class s.

Definition checks (password : jsstring) : list bool :=
  [8 <=? JS.length password; test is_digit password; test is_special password].

(** [checks.filter(Boolean).length] *)
Definition strength (password : jsstring) : nat :=
  List.length (List.filter (fun b : bool => b) (checks password)).

(** [getColor]; its argument is not used. *)
Definition getColor (strength : nat) (index : nat) : jsstring :=
  if (strength =? 1)%nat then js "bg-cyber-alert"
  else if (strength =? 2)%nat then js "bg-yellow-500"
  else if (strength =? 3)%nat then js "bg-cyber-success"
  else js "bg-cyber-border".

(** The colour classes of the three bars; [None] is the [null] returned for
    a falsy password. *)
Definition render (password : jsstring) : option (list jsstring) :=
  if negb (truthy (Some password)) then None
  else
    let strength := strength password in
    Some (map (fun index =>
                 if (index <? strength)%nat then getColor strength index
                 else js "bg-cyber-border/30")
              [0; 1; 2]%nat).

End PasswordStrengthMeter.

(** ** The form of [AuthScreen] (lines 290-339) *)

Module AuthForm.

Inductive StatusType := error | success.

Record Status := {
  type : option StatusType;
  message : jsstring
}.

(** The ids of the four inputs (lines 369-375). *)
Inductive Field := FullName | Email | Password | ConfirmPassword.

Definition key (fld : Field) : jsstring :=
  match fld with
  | FullName => js "fullName"
  | Email => js "email"
  | Password => js "password"
  | ConfirmPassword => js "confirmPassword"
  end.

Record State := {
  isLogin : bool;
  isLoading : bool;
  status : Status;
  formData : AuthScreen.FormData;
  errors : gmap jsstring jsstring
}.

(** The state of lines 291-295. *)
Definition initial : State :=
  {| isLogin := true; isLoading := false;
     status := {| type := None; message := [] |};
     formData := {| AuthScreen.fullName := []; AuthScreen.email := [];
                    AuthScreen.password := []; AuthScreen.confirmPassword := [] |};
     errors := ∅ |}.

Definition set_field (fld : Field) (v : jsstring) (f : AuthScreen.FormData)
  : AuthScreen.FormData :=
  match fld with
  | FullName =>
      {| AuthScreen.fullName := v; AuthScreen.email := AuthScreen.email f;
         AuthScreen.password := AuthScreen.password f;
         AuthScreen.confirmPassword := AuthScreen.confirmPassword f |}
  | Email =>
      {| AuthScreen.fullName := AuthScreen.fullName f; AuthScreen.email := v;
         AuthScreen.password := AuthScreen.password f;
         AuthScreen.confirmPassword := AuthScreen.confirmPassword f |}
  | Password =>
      {| AuthScreen.fullName := AuthScreen.fullName f;
         AuthScreen.email := AuthScreen.email f;
         AuthScreen.password := v;
         AuthScreen.confirmPassword := AuthScreen.confirmPassword f |}
  | ConfirmPassword =>
      {| AuthScreen.fullName := AuthScreen.fullName f;
         AuthScreen.email := AuthScreen.email f;
         AuthScreen.password := AuthScreen.password f;
         AuthScreen.confirmPassword := v |}
  end.

Definition get_field (fld : Field) (f : AuthScreen.FormData) : jsstring :=
  match fld with
  | FullName => AuthScreen.fullName f
  | Email => AuthScreen.email f
  | Password => AuthScreen.password f
  | ConfirmPassword => AuthScreen.confirmPassword f
  end.

(** [handleInputChange] (lines 298-301) for the input [fld]. *)
Definition handleInputChange (fld : Field) (value : jsstring) (st : State)
  : State :=
  {| isLogin := isLogin st; isLoading := isLoading st; status := status st;
     formData := set_field fld value (formData st);
     errors := if truthy (errors st !! key fld)
               then <[key fld := []]> (errors st)
               else errors st |}.

(** The error shown under an input (line 259): a falsy entry shows none. *)
Definition shown_error (fld : Field) (st : State) : option jsstring :=
  match errors st !! key fld with
  | Some (c :: m) => Some (c :: m)
  | _ => None
  end.

(** [newErrors] (lines 308-314) *)
Definition validate (isLogin : bool) (f : AuthScreen.FormData)
  : gmap jsstring jsstring :=
  let newErrors : gmap jsstring jsstring := ∅ in
  let newErrors :=
    if AuthScreen.falsy (AuthScreen.email f)
    then <[js "email" := js "REQUIRED"]> newErrors else newErrors in
  let newErrors :=
    if isLogin && AuthScreen.falsy (AuthScreen.password f)
    then <[js "password" := js "REQUIRED"]> newErrors else newErrors in
  if negb isLogin then
    let newErrors :=
      if AuthScreen.falsy (AuthScreen.fullName f)
      then <[js "fullName" := js "REQUIRED"]> newErrors else newErrors in
    if negb (bool_decide (AuthScreen.password f = AuthScreen.confirmPassword f))
    then <[js "confirmPassword" := js "MISMATCH"]> newErrors else newErrors
  else newErrors.

(** [handleSubmit] up to its [await] (lines 303-330): the state, and
    whether the adapter is called. [Object.keys(newErrors).length > 0] is
    the map not being empty. *)
Definition submit (st : State) : State * bool :=
  let newErrors := validate (isLogin st) (formData st) in
  if negb (bool_decide (newErrors = ∅)) then
    ({| isLogin := isLogin st; isLoading := isLoading st;
        status := {| type := None; message := [] |};
        formData := formData st; errors := newErrors |}, false)
  else
    ({| isLogin := isLogin st; isLoading := true;
        status := {| type := None; message := [] |};
        formData := formData st; errors := ∅ |}, true).

(** [err.message || 'CONNECTION FAILED'] *)
Definition failure_message (e : Error) : jsstring :=
  match err_message e with
  | [] => js "CONNECTION FAILED"
  | m => m
  end.

(** [handleSubmit] from its [await] on (lines 332-338). *)
Definition settle (response : settled AuthResponse) (st : State) : State :=
  match response with
  | Fulfilled _ =>
      {| isLogin := isLogin st; isLoading := isLoading st;
         status := {| type := Some success;
                      message := js "AUTHENTICATION SUCCESSFUL" |};
         formData := formData st; errors := errors st |}
  | Rejected err =>
      {| isLogin := isLogin st; isLoading := false;
         status := {| type := Some error; message := failure_message err |};
         formData := formData st; errors := errors st |}
  end.

Section WithRuntime.
Context {B : Builtins} {J : Json}.

(** [api.login(...)] or [api.register(...)] on the adapter that [getBackend]
    resolves (lines 324-330): how the promise settles, given the random
    numbers and the network. *)
Definition call (isLogin : bool) (f : AuthScreen.FormData) (ls : Storage)
    (g : Rng) (net : Network AuthResponse) : settled AuthResponse :=
  match getBackend ls with
  | MockAdapter =>
      if isLogin
      then outcome (fst (MockAdapter.login (AuthScreen.email f)
                           (AuthScreen.password f) g))
      else outcome (fst (MockAdapter.register (AuthScreen.email f)
                           (AuthScreen.password f) (AuthScreen.fullName f) g))
  | LiveAdapter =>
      if isLogin
      then LiveAdapter.login (AuthScreen.email f) (AuthScreen.password f) net
      else LiveAdapter.register (AuthScreen.email f) (AuthScreen.password f)
             (AuthScreen.fullName f) net
  end.

End WithRuntime.

End AuthForm.

(** ** [OverviewPanel]: the status of the CPU card (line 416) *)

Inductive CardStatus := good | bad.

(** [stats.cpu > 80 ? 'bad' : 'good'] *)
Definition cpu_status (stats : SystemStats) : CardStatus :=
  if ltb (lit 80) (cpu stats) then bad else good.

(** ** [DevicesPanel] (lines 473-489) *)

Module DevicesPanel.

Record State := {
  devices : list Device;
  loading : bool;
  trace : list Effect
}.

(** The state of lines 474-475 and the effect (lines 477-480) up to the call
    of [fetchDevices]. *)
Definition mount (ls : Storage) : State :=
  {| devices := []; loading := true;
     trace := [Invoke (getBackend ls) OpFetchDevices] |}.

(** [.then(setDevices).finally(() => setLoading(false))]: the state once
    the promise of [fetchDevices] has settled, and how the promise of the
    chain, which nothing awaits, settles. *)
Definition settle (r : settled (list Device)) (st : State)
  : State * settled unit :=
  match r with
  | Fulfilled ds =>
      ({| devices := ds; loading := false; trace := trace st |}, Fulfilled tt)
  | Rejected e =>
      ({| devices := devices st; loading := false; trace := trace st |},
       Rejected e)
  end.

(** [getStatusColor] (lines 482-489) *)
Definition getStatusColor (status : DeviceStatus) : jsstring :=
  match status with
  | ONLINE => js "text-cyber-success"
  | ERROR => js "text-cyber-alert"
  | MAINTENANCE => js "text-yellow-500"
  | _ => js "text-cyber-muted"
  end.

End DevicesPanel.

(** ** [LogsPanel] (lines 547-553) *)

(** [toLowerCase], the engine's. *)
Class LowerCase := {
  toLowerCase : jsstring -> jsstring
}.

Module LogsPanel.
Section WithLowerCase.
Context {L : LowerCase}.

(** The predicate given to [logs.filter] (lines 550-553). *)
Definition matches (filter : jsstring) (l : LogEntry) : bool :=
  includes (toLowerCase (message l)) (toLowerCase filter)
  || includes (toLowerCase (source l)) (toLowerCase filter).

Definition filteredLogs (logs : list LogEntry) (filter : jsstring)
  : list LogEntry :=
  List.filter (matches filter) logs.

End WithLowerCase.
End LogsPanel.

(** ** [SettingsPanel]: the connection test (lines 594, 603-620) *)

Module ConnectionTest.

Inductive ConnectionStatus := checking | connected | failed | idle.

Record State := {
  useLive : bool;
  connectionStatus : ConnectionStatus
}.

(** Lines 593-594. *)
Definition initial (ls : Storage) : State :=
  {| useLive := SettingsPanel.useLive (SettingsPanel.mount ls);
     connectionStatus := idle |}.

(** [testConnection] up to its [await] (lines 604-610): the state, and the
    request sent, if any. *)
Definition testConnection (ls : Storage) (st : State)
  : State * option Request :=
  if negb (useLive st) then (st, None)
  else ({| useLive := useLive st; connectionStatus := checking |},
        Some {| url := API_URL ++ js "/system/stats";
                method := GET;
                headers := [(js "Authorization",
                             js "Bearer " ++ interpolate (getItem ls (js "token")))];
                body := None |}).

(** The rest of [testConnection] (lines 611-615): a response that is not ok
    throws into the [catch], as a rejected [fetch] does. *)
Definition settle {A : Type} (r : settled (Response A)) (st : State) : State :=
  match r with
  | Fulfilled res =>
      if ok res
      then {| useLive := useLive st; connectionStatus := connected |}
      else {| useLive := useLive st; connectionStatus := failed |}
  | Rejected _ => {| useLive := useLive st; connectionStatus := failed |}
  end.

(** The panel once rendered, its effect run (lines 618-620) and the request
    of that run, if one was sent, answered by the network. *)
Definition mounted {A : Type} (ls : Storage) (net : Network A) : State :=
  let st := initial ls in
  if useLive st then
    match testConnection ls st with
    | (st', Some req) => settle (net req) st'
    | (st', None) => st'
    end
  else st.

End ConnectionTest.

(** ** The session: the page between two reloads *)

Module Session.

(** The page; whether the authentication form is waiting for the adapter or
    has been answered with success ([isLoading], which disables its submit
    button, line 212); and the profile that a pending [onLoginSuccess] timer
    will be called with (line 334). *)
Record State := {
  page : App.Page;
  loading : bool;
  timer : option UserProfile
}.

(** What happens to a page: the form of the authentication screen is
    submitted and the adapter's promise settles, the timer set on success
    fires, the user logs out from the settings panel, the page is reloaded. *)
Inductive Event :=
| Submitted (isLogin : bool) (f : AuthScreen.FormData)
    (response : settled AuthResponse)
| TimerFired
| LoggedOut
| Reloaded.

(** The page after a load: the bootstrap has run, the form, if shown, is
    fresh, and no timer is pending. *)
Definition loaded (ls : Storage) : State :=
  {| page := App.bootstrap ls; loading := false; timer := None |}.

(** One event; [None] when it cannot happen: the form exists only on the
    authentication screen and cannot be submitted while loading, the logout
    button exists only on the dashboard. A failed or refused submit leaves
    the form ready (lines 316-319 and 337); a logout renders a fresh form. *)
Definition step (s : State) (ev : Event) : option State :=
  match ev with
  | Submitted isLogin f response =>
      match App.render (App.app (page s)), loading s with
      | App.ShowAuthScreen, false =>
          let '(p, u) := AuthScreen.handleSubmit isLogin f response (page s) in
          Some match u with
               | Some _ => {| page := p; loading := true; timer := u |}
               | None => {| page := p; loading := false; timer := timer s |}
               end
      | _, _ => None
      end
  | TimerFired =>
      match timer s with
      | Some u => Some {| page := App.handleLoginSuccess u (page s);
                          loading := loading s; timer := None |}
      | None => None
      end
  | LoggedOut =>
      match App.render (App.app (page s)) with
      | App.ShowDashboardScreen _ =>
          Some {| page := App.handleLogout (page s); loading := false;
                  timer := timer s |}
      | _ => None
      end
  | Reloaded => Some (loaded (App.storage (page s)))
  end.

Fixpoint run (s : State) (evs : list Event) : option State :=
  match evs with
  | [] => Some s
  | ev :: evs' =>
      match step s ev with
      | None => None
      | Some s' => run s' evs'
      end
  end.

End Session.

(** ** Vocabulary of the statements *)

(** [x] is the double of an integer in [[lo, hi)]. *)
Definition in_band (lo hi : Z) (x : number) : Prop :=
  exists k : Z, lo <= k < hi /\ x = lit k.

#[global] Instance number_eq_dec : EqDecision number.
Proof. solve_decision. Defined.

(** Adding the double of each of [0 .. n-1] to the double of [base] gives the
    double of the integer sum. *)
Definition add_lit_exact (base : Z) (n : nat) : bool :=
  forallb (fun i => bool_decide (add (lit base) (lit (Z.of_nat i))
                                 = lit (base + Z.of_nat i)))
          (seq 0 n).

(** The doubles of the integers of [[lo, lo + n)] compare as the integers do
    with the doubles of the two ends. *)
Definition band_compare_exact (lo : Z) (n : nat) : bool :=
  forallb (fun i => leb (lit lo) (lit (lo + Z.of_nat i))
                    && ltb (lit (lo + Z.of_nat i)) (lit (lo + Z.of_nat n)))
          (seq 0 n).


Definition is_invoke (e : Effect) : bool :=
  match e with
  | Invoke _ _ => true
  | _ => false
  end.




(** The keys of the two stored entries. *)
Definition flag : jsstring := js "use_live_backend".

Definition token_key : jsstring := js "token".

(** The error of a rejected [login]. *)
Definition invalid_credentials : Error :=
  {| err_message := js "INVALID CREDENTIALS" |}.

(** Two supplies that agree from the fourth number on. *)
Definition agree_after_first_call (g g' : Rng) : Prop :=
  forall n, g' (3 + n)%nat = g (3 + n)%nat.

(** One half, a number [Math.random()] may return. *)
Definition half : number := S754_finite false 4503599627370496 (-53).

(** The rejection of the promise that a suspended call waits for. *)
Definition rejection (k : DashboardScreen.Await) (e : Error) : DashboardScreen.Settlement :=
  match k with
  | DashboardScreen.AwaitStats => DashboardScreen.StatsSettled (Rejected e)
  | DashboardScreen.AwaitLogs => DashboardScreen.LogsSettled (Rejected e)
  end.

(** After [j] right shifts of the mantissa [M] the record holds a mantissa not
    above [M / 2^j], and its round bit is set only when the part shifted out is
    at least half a unit. *)
Definition below (M j : Z) (r : shr_record) : Prop :=
  0 <= shr_m r /\ shr_m r * 2 ^ j <= M /\
  (shr_r r = true -> 2 * shr_m r * 2 ^ j + 2 ^ j <= 2 * M).

(** ** Instances to run examples with *)

(** Lower-casing of the ASCII letters, which is what [toLowerCase] does on
    strings of code units below 128. *)
Definition lower_unit (c : code_unit) : code_unit :=
  if (65 <=? c)%N && (c <=? 90)%N then (c + 32)%N else c.

Definition ascii_lower : LowerCase := {| toLowerCase := map lower_unit |}.

Definition hex_digit (d : N) : code_unit :=
  if (d <? 10)%N then (48 + d)%N else (87 + d)%N.

(** The quoting of [JSON.stringify] for a string without lone surrogates. *)
Definition quote_unit (c : code_unit) : jsstring :=
  if (c =? 34)%N then js "\" ++ [34%N]
  else if (c =? 92)%N then js "\\"
  else if (c =? 8)%N then js "\b"
  else if (c =? 9)%N then js "\t"
  else if (c =? 10)%N then js "\n"
  else if (c =? 12)%N then js "\f"
  else if (c =? 13)%N then js "\r"
  else if (c <? 32)%N then js "\u00" ++ [hex_digit (c / 16); hex_digit (c mod 16)]
  else [c].

Definition quote (s : jsstring) : jsstring :=
  [34%N] ++ concat (map quote_unit s) ++ [34%N].

Fixpoint members (fields : list (jsstring * jsstring)) : jsstring :=
  match fields with
  | [] => []
  | [(k, v)] => quote k ++ js ":" ++ quote v
  | (k, v) :: rest => quote k ++ js ":" ++ quote v ++ js "," ++ members rest
  end.

Definition plain_json : Json :=
  {| JSON_stringify fields := js "{" ++ members fields ++ js "}" |}.

(** ** Vocabulary of the further statements *)

(** [p] occurs in [s]. *)
Definition contains (s p : jsstring) : Prop := exists a b, s = a ++ p ++ b.

(** The number of effects of a kind in a trace. *)
Definition count (kind : Effect -> bool) (tr : list Effect) : nat :=
  List.length (List.filter kind tr).

Definition is_stats_call (e : Effect) : bool :=
  match e with
  | Invoke _ OpFetchSystemStats => true
  | _ => false
  end.

Definition is_logs_call (e : Effect) : bool :=
  match e with
  | Invoke _ OpFetchLogs => true
  | _ => false
  end.

Definition is_set_stats (e : Effect) : bool :=
  match e with
  | SetStats _ => true
  | _ => false
  end.

Definition is_set_logs (e : Effect) : bool :=
  match e with
  | SetLogs _ => true
  | _ => false
  end.

Definition is_console_error (e : Effect) : bool :=
  match e with
  | ConsoleError _ => true
  | _ => false
  end.



(** A bar of the strength meter that is lit. *)
Definition lit_bar (class : jsstring) : bool :=
  negb (bool_decide (class = js "bg-cyber-border/30")).

(** The doubles of the integers of [[lo, lo + n)] are not above 80. *)
Definition below_alarm (lo : Z) (n : nat) : bool :=
  forallb (fun i => negb (ltb (lit 80) (lit (lo + Z.of_nat i)))) (seq 0 n).

(** Inputs of the examples: a login form, an empty sign-up form, a storage
    that selects the Live adapter, and a network that answers every request
    with a response that is not ok. *)
Definition admin_form : AuthScreen.FormData :=
  {| AuthScreen.fullName := []; AuthScreen.email := js "admin@x.com";
     AuthScreen.password := js "password1"; AuthScreen.confirmPassword := [] |}.

Definition signup_form : AuthForm.State :=
  {| AuthForm.isLogin := false; AuthForm.isLoading := false;
     AuthForm.status := AuthForm.status AuthForm.initial;
     AuthForm.formData := AuthForm.formData AuthForm.initial;
     AuthForm.errors := ∅ |}.

Definition live_storage : Storage := {[ flag := js "true" ]}.

(** The operation [op] sends [req] and answers as the five operations of the
    Live adapter do: it is fulfilled exactly when [fetch] is fulfilled with an
    ok response whose [json()] is fulfilled, and then with that value; a
    response that is not ok gives the error [msg]; what [fetch] rejects with
    is passed on. *)
Definition answers {A : Type} (op : Network A -> settled A) (req : Request)
    (msg : string) : Prop :=
  forall net : Network A,
    (forall v, op net = Fulfilled v
       <-> exists res, net req = Fulfilled res /\ ok res = true /\
                       json res = Fulfilled v) /\
    (forall res, net req = Fulfilled res -> ok res = false ->
       op net = Rejected {| err_message := js msg |}) /\
    (forall e, net req = Rejected e -> op net = Rejected e).

Definition refusing {A : Type} : Network A :=
  fun _ => Fulfilled {| ok := false;
                        json := Rejected {| err_message := js "Unexpected token" |} |}.

(** The logs of the Simulated Provider. *)
Definition canned_logs : list LogEntry :=
  match outcome MockAdapter.fetchLogs with
  | Fulfilled ls => ls
  | Rejected _ => []
  end.

(** Two statistics, as a server may send them. *)
Definition stats_a : SystemStats :=
  {| cpu := lit 50; memory := lit 70; network := lit 150;
     activeNodes := lit 24 |}.

Definition stats_b : SystemStats :=
  {| cpu := lit 43; memory := lit 64; network := lit 120;
     activeNodes := lit 24 |}.

(** Every request of a dashboard is accounted for: in flight, written, or
    logged as an error; and each [setStats] started one [fetchLogs]. *)
Definition accounted (d : DashboardScreen.State) : Prop :=
  (count is_stats_call (DashboardScreen.trace d)
   + count is_logs_call (DashboardScreen.trace d)
   = List.length (DashboardScreen.pending d)
     + count is_set_stats (DashboardScreen.trace d)
     + count is_set_logs (DashboardScreen.trace d)
     + count is_console_error (DashboardScreen.trace d))%nat /\
  count is_logs_call (DashboardScreen.trace d)
  = count is_set_stats (DashboardScreen.trace d).

Definition is_set_interval (e : Effect) : bool :=
  match e with
  | SetInterval _ => true
  | _ => false
  end.

Definition is_clear_interval (e : Effect) : bool :=
  match e with
  | ClearInterval => true
  | _ => false
  end.


(** * Properties *)

(** ** Facts about binary64 rounding *)

Section Rounding.

Lemma digits2_pos_size p : digits2_pos p = Pos.size p.
Proof. induction p; simpl; congruence. Qed.

Lemma Zdigits2_le x j : 0 <= j -> 0 <= x < 2 ^ j -> Zdigits2 x <= j.
Proof.
  intros Hj [H0 Hx]. destruct x as [|p|p]; simpl; [lia| |lia].
  rewrite digits2_pos_size.
  pose proof (Pos.size_le p) as Hle.
  apply Pos2Z.pos_le_pos in Hle. rewrite Pos2Z.inj_pow in Hle.
  change (Z.pos p~0) with (2 * Z.pos p) in Hle.
  assert (2 ^ Z.pos (Pos.size p) < 2 ^ (j + 1)) as Hlt.
  { rewrite Z.pow_add_r by lia. lia. }
  apply Z.pow_lt_mono_r_iff in Hlt; lia.
Qed.

Lemma Zdigits2_gt p : Z.pos p < 2 ^ Z.pos (digits2_pos p).
Proof.
  rewrite digits2_pos_size. pose proof (Pos.size_gt p) as H.
  apply Pos2Z.pos_lt_pos in H. now rewrite Pos2Z.inj_pow in H.
Qed.

Lemma shr_1_below M j r : 0 <= j -> below M j r -> below M (j + 1) (shr_1 r).
Proof.
  intros Hj (H0 & Hle & Hr). destruct r as [m r s]; simpl in *.
  assert (0 < 2 ^ j) by (apply Z.pow_pos_nonneg; lia).
  unfold below. rewrite Z.pow_add_r by lia. change (2 ^ 1) with 2.
  destruct m as [|[p|p|]|p]; simpl; try lia;
    repeat split; try lia; intros _; lia.
Qed.

Lemma iter_shr_1_below M p : forall j r,
  0 <= j -> below M j r -> below M (j + Z.pos p) (SpecFloat.iter_pos shr_1 p r).
Proof.
  induction p as [p IH|p IH|]; intros j r Hj Hb; simpl.
  - replace (j + Z.pos p~1) with (j + 1 + Z.pos p + Z.pos p) by lia.
    apply IH; [lia|]. apply IH; [lia|]. now apply shr_1_below.
  - replace (j + Z.pos p~0) with (j + Z.pos p + Z.pos p) by lia.
    apply IH; [lia|]. now apply IH.
  - now apply shr_1_below.
Qed.

Lemma shr_fexp_exact M E :
  0 <= M ->
  let n := fexp prec emax (Zdigits2 M + E) - E in
  let r := fst (shr_fexp prec emax M E loc_Exact) in
  let e' := snd (shr_fexp prec emax M E loc_Exact) in
  (n <= 0 /\ shr_m r = M /\ shr_r r = false /\ e' = E) \/
  (0 < n /\ e' = E + n /\ below M n r).
Proof.
  intros HM n r e'. subst r e'. unfold shr_fexp, shr. fold n.
  destruct n as [|p|p] eqn:Hn; simpl.
  - left. repeat split; lia.
  - right. split; [lia|]. split; [lia|].
    apply (iter_shr_1_below M p 0); [lia|]. unfold below; simpl. lia.
  - left. repeat split; lia.
Qed.

Lemma round_nearest_even_below M j r :
  below M j r ->
  let k := round_nearest_even (shr_m r) (loc_of_shr_record r) in
  0 <= k /\ 2 * k * 2 ^ j <= 2 * M + 2 ^ j.
Proof.
  intros (H0 & Hle & Hr). destruct r as [m r s]; simpl in *.
  assert (0 <= 2 ^ j) by (apply Z.pow_nonneg; lia).
  destruct r, s; simpl; try (destruct (Z.even m)); specialize (Hr); lia.
Qed.

Lemma is_random_finite m e :
  is_random (S754_finite false m e) = true ->
  52 <= - e <= 1074 /\ Z.pos m < 2 ^ (- e) /\ Z.pos m < 2 ^ 53.
Proof.
  unfold is_random. intros H. apply andb_true_iff in H as [Hb Hlt].
  unfold bounded, canonical_mantissa in Hb.
  apply andb_true_iff in Hb as [Hc _]. apply Z.eqb_eq in Hc.
  unfold fexp, emin, prec, emax in Hc.
  pose proof (Zdigits2_gt m) as Hd.
  assert (Z.pos (digits2_pos m) <= 53) as Hd53 by lia.
  assert (Z.pos m < 2 ^ 53) as Hm53.
  { eapply Z.lt_le_trans; [exact Hd|]. apply Z.pow_le_mono_r; lia. }
  assert (-1074 <= e) as Hmin by lia.
  clear Hc Hd Hd53.
  unfold ltb, SFltb in Hlt.
  change (lit 1) with (S754_finite false 4503599627370496 (-52)) in Hlt.
  unfold SFcompare in Hlt.
  destruct (e ?= -52) eqn:Hcmp; try discriminate.
  - apply Z.compare_eq in Hcmp. subst e.
    destruct (Pos.compare_cont Eq m 4503599627370496) eqn:Hpc; try discriminate.
    assert (Pos.lt m 4503599627370496%positive) as Hq by exact Hpc.
    apply Pos2Z.pos_lt_pos in Hq. clear Hpc Hlt.
    change (- -52) with 52. change (2 ^ 52) with 4503599627370496.
    split; [clear; lia|]. split; assumption.
  - change (e < -52) in Hcmp. clear Hlt.
    split; [lia|]. split; [|exact Hm53].
    eapply Z.lt_le_trans; [exact Hm53|]. apply Z.pow_le_mono_r; lia.
Qed.

Lemma random_scaled_floor (N b : Z) (mc : positive) (r : number) :
  1 <= b -> Z.pos mc = N * 2 ^ b -> 2 ^ 52 < Z.pos mc < 2 ^ 53 ->
  is_random r = true ->
  exists q, 0 <= q < N /\ Math_floor (mul r (S754_finite false mc (- b))) = lit q.
Proof.
  intros Hb Hmc Hrange Hr.
  assert (0 < 2 ^ b) as Hpb by (apply Z.pow_pos_nonneg; lia).
  assert (0 < N) as HN by nia.
  destruct r as [[|]|[|]| |[|] m e]; try discriminate Hr.
  { exists 0. split; [lia|reflexivity]. }
  apply is_random_finite in Hr as (Ha & Hma & Hm53).
  remember (- e) as a eqn:Ea. assert (e = - a) as -> by lia. clear Ea.
  unfold mul, SFmul. cbn [xorb]. unfold binary_round_aux.
  rewrite Pos2Z.inj_mul.
  remember (Z.pos m) as zm eqn:Ezm.
  assert (0 < zm) as Hzm by (subst zm; lia). clear Ezm m.
  remember (Z.pos mc) as zc eqn:Ezc. clear Ezc mc.
  set (M := zm * zc). set (E := - a + - b).
  assert (0 < 2 ^ a) as Hpa by (apply Z.pow_pos_nonneg; lia).
  assert (HM : 0 < M) by (unfold M; nia).
  assert (HMle : M + zc <= 2 ^ a * zc) by (unfold M; nia).
  assert (Hd1 : Zdigits2 M <= 106).
  { apply Zdigits2_le; [lia|]. split; [lia|].
    unfold M. change 106 with (53 + 53).
    rewrite Z.pow_add_r by lia. nia. }
  assert (Hd2 : Zdigits2 M <= a + 53).
  { apply Zdigits2_le; [lia|]. split; [lia|].
    rewrite Z.pow_add_r by lia. unfold M. nia. }
  pose proof (shr_fexp_exact M E (Z.lt_le_incl _ _ HM)) as H1.
  destruct (shr_fexp prec emax M E loc_Exact) as [r1 e1]. cbn [fst snd] in H1.
  set (k := round_nearest_even (shr_m r1) (loc_of_shr_record r1)).
  assert (Hk : 0 <= k /\ e1 < 0 /\ k < N * 2 ^ (- e1)).
  { unfold fexp, emin, prec, emax in H1. cbv zeta in H1.
    assert (Hzc : zc * 1 <= zc * 1) by lia.
    assert (Hab : 2 ^ (a + b) = 2 ^ a * 2 ^ b) by (apply Z.pow_add_r; lia).
    destruct H1 as [(Hn & Hm1 & Hr1 & He1)|(Hn & He1 & Hbel)].
    - assert (k = M) as ->.
      { unfold k. destruct r1 as [m1 rr ss]; simpl in *. subst rr m1.
        now destruct ss. }
      subst e1. split; [lia|]. split; [unfold E; lia|].
      replace (- E) with (a + b) by (unfold E; lia).
      rewrite Hab. nia.
    - apply round_nearest_even_below in Hbel. fold k in Hbel.
      destruct Hbel as [Hk0 Hk2].
      split; [exact Hk0|]. split; [unfold E in *; lia|].
      set (n := (Zdigits2 M + E - 53) `max` (3 - 1024 - 53) - E) in *.
      assert (Hsplit : a + b = - e1 + n) by (unfold E in *; lia).
      assert (He1neg : 0 <= - e1) by (unfold E in *; lia).
      assert (Hpn : 0 < 2 ^ n) by (apply Z.pow_pos_nonneg; lia).
      assert (Hhalf : 2 ^ n < 2 * zc).
      { assert (n <= 53 \/ n <= b) as [Hc|Hc] by (unfold n, E; lia).
        - apply (Z.pow_le_mono_r 2) in Hc; [|lia]. 
          change (2 ^ 53) with (2 * 2 ^ 52) in Hc. lia.
        - apply (Z.pow_le_mono_r 2) in Hc; [|lia]. nia. }
      assert (Hpow : 2 ^ a * zc = N * 2 ^ (- e1) * 2 ^ n).
      { rewrite Hmc, <- Z.mul_assoc, <- Z.pow_add_r, <- Hsplit, Hab by lia. ring. }
      assert (k * 2 ^ n < N * 2 ^ (- e1) * 2 ^ n) by lia.
      eapply Z.mul_lt_mono_pos_r; eassumption. }
  destruct Hk as (Hk0 & He1 & Hklt). clearbody k. clear H1 Hd1 Hd2 HMle.
  assert (Hb52 : b < 53).
  { apply (Z.pow_lt_mono_r_iff 2); [lia|lia|nia]. }
  assert (HN53 : N < 2 ^ (53 - b)).
  { assert (2 ^ 53 = 2 ^ (53 - b) * 2 ^ b) as Hs.
    { rewrite <- Z.pow_add_r by lia. f_equal. lia. }
    rewrite Hs in Hrange. nia. }
  assert (Hpe1 : 0 < 2 ^ (- e1)) by (apply Z.pow_pos_nonneg; lia).
  assert (Hdk : Zdigits2 k <= 53 - b + - e1).
  { apply Zdigits2_le; [lia|]. split; [lia|].
    rewrite Z.pow_add_r by lia. nia. }
  pose proof (shr_fexp_exact k e1 Hk0) as H2.
  destruct (shr_fexp prec emax k e1 loc_Exact) as [r2 e2]. cbn [fst snd] in H2.
  unfold fexp, emin, prec, emax in H2. cbv zeta in H2.
  assert (Hfin : 0 <= shr_m r2 /\ e2 < 0 /\ shr_m r2 < N * 2 ^ (- e2)).
  { destruct H2 as [(Hn & Hm2 & _ & He2)|(Hn & He2 & Hbel)].
    - subst e2. rewrite Hm2. auto.
    - destruct Hbel as (Hm0 & Hmle & _).
      set (n := (Zdigits2 k + e1 - 53) `max` (3 - 1024 - 53) - e1) in *.
      split; [exact Hm0|]. split; [lia|].
      assert (Hpn : 0 < 2 ^ n) by (apply Z.pow_pos_nonneg; lia).
      assert (Hs : 2 ^ (- e1) = 2 ^ (- e2) * 2 ^ n).
      { rewrite <- Z.pow_add_r by lia. f_equal. lia. }
      rewrite Hs in Hklt.
      apply (Z.mul_lt_mono_pos_r (2 ^ n)); [exact Hpn|]. lia. }
  destruct Hfin as (Hm0 & He2 & Hmlt).
  destruct (shr_m r2) as [|m2|m2].
  - exists 0. split; [lia|reflexivity].
  - replace (e2 <=? emax - prec) with true
      by (symmetry; apply Z.leb_le; unfold emax, prec; lia).
    unfold Math_floor. replace (0 <=? e2) with false
      by (symmetry; apply Z.leb_gt; lia).
    exists (Z.pos m2 / 2 ^ (- e2)). split; [|reflexivity].
    assert (0 < 2 ^ (- e2)) by (apply Z.pow_pos_nonneg; lia).
    split.
    + apply Z.div_pos; lia.
    + apply Z.div_lt_upper_bound; [lia|]. rewrite Z.mul_comm. exact Hmlt.
  - lia.
Qed.

End Rounding.

(** ** Facts about strings *)

Section Strings.

Lemma startsWith_spec (p s : jsstring) :
  startsWith s p = true <-> exists b, s = p ++ b.
Proof.
  revert s. induction p as [|c p IH]; intros s; simpl.
  - split; [intros _; now exists s|reflexivity].
  - destruct s as [|d s].
    + split; [discriminate|]. intros [b Hb]. discriminate.
    + rewrite andb_true_iff, N.eqb_eq, IH. split.
      * intros [-> [b ->]]. now exists b.
      * intros [b Hb]. injection Hb as -> ->. split; [reflexivity|now exists b].
Qed.

Lemma includes_spec (s p : jsstring) :
  includes s p = true <-> exists a b, s = a ++ p ++ b.
Proof.
  induction s as [|d s IH].
  - simpl. rewrite orb_false_r, startsWith_spec. split.
    + intros [b Hb]. now exists [], b.
    + intros (a & b & Hab). destruct a; [now exists b|discriminate].
  - cbn [includes]. rewrite orb_true_iff, startsWith_spec, IH. split.
    + intros [[b Hb]|(a & b & Hab)].
      * now exists [], b.
      * exists (d :: a), b. now rewrite Hab.
    + intros (a & b & Hab). destruct a as [|d' a].
      * left. now exists b.
      * right. injection Hab as _ ->. now exists a, b.
Qed.

Lemma includes_unit (s : jsstring) (c : code_unit) :
  includes s [c] = true <-> c ∈ s.
Proof.
  rewrite includes_spec. split.
  - intros (a & b & ->). apply elem_of_app. right. apply elem_of_cons. now left.
  - intros Hin. apply list_elem_of_split in Hin as (a & b & ->). now exists a, b.
Qed.

Lemma split_first (s : jsstring) (sep : code_unit) :
  sep ∈ s ->
  exists rest, s = first (split s sep) ++ sep :: rest /\ sep ∉ first (split s sep).
Proof.
  induction s as [|c s IH]; intros Hin.
  - now apply elem_of_nil in Hin.
  - simpl. destruct (N.eqb_spec c sep) as [->|Hne].
    + exists s. split; [reflexivity|]. apply not_elem_of_nil.
    + apply elem_of_cons in Hin as [->|Hin]; [congruence|].
      destruct (IH Hin) as (rest & Heq & Hnot).
      destruct (split s sep) as [|piece pieces]; simpl in *.
      * exists rest. split; [now rewrite Heq at 1|].
        intros [?|?]%elem_of_cons; [congruence|now apply Hnot].
      * exists rest. split; [now rewrite Heq at 1|].
        intros [?|?]%elem_of_cons; [congruence|now apply Hnot].
Qed.

End Strings.

(** ** The Simulated Provider *)

Section MockAdapterProperties.
Context {B : Builtins}.

Lemma login_valid (email password : jsstring) :
  includes email (js "@") && (8 <=? JS.length password) = true
  <-> 64%N ∈ email /\ 8 <= JS.length password.
Proof.
  rewrite andb_true_iff, Z.leb_le.
  change (js "@") with [64%N]. now rewrite includes_unit.
Qed.

(** C1. [login(email, password)] of the Simulated Provider succeeds exactly
    when [email] contains "@" and [password] has at least 8 code units. On
    success the role is ADMIN exactly when [email] contains "admin" and is
    OPERATOR otherwise, and the name is the upper-cased part of [email] before
    its first "@". Otherwise the promise is rejected with the message
    "INVALID CREDENTIALS". *)
Theorem login_spec (email password : jsstring) (g : Rng) :
  let valid := 64%N ∈ email /\ 8 <= JS.length password in
  let p := fst (MockAdapter.login email password g) in
  ((exists r, outcome p = Fulfilled r) <-> valid) /\
  (valid ->
   exists r local rest,
     outcome p = Fulfilled r /\
     (role (user r) = ADMIN <-> exists a b, email = a ++ js "admin" ++ b) /\
     (role (user r) = OPERATOR <-> ~ (exists a b, email = a ++ js "admin" ++ b)) /\
     email = local ++ 64%N :: rest /\ (64%N ∉ local) /\
     name (user r) = toUpperCase local) /\
  (~ valid -> outcome p = Rejected invalid_credentials).
Proof.
  intros valid p. subst valid p.
  pose proof (login_valid email password) as Hv.
  unfold MockAdapter.login.
  destruct (includes email (js "@") && (8 <=? JS.length password)) eqn:Hc.
  - assert (Hvalid : 64%N ∈ email /\ 8 <= JS.length password) by now apply Hv.
    cbn [mbind mret Rand_bind Rand_ret Math_random fst outcome].
    split; [|split].
    + split; [intros _; exact Hvalid|intros _; eauto].
    + intros _. destruct (split_first email 64%N (proj1 Hvalid))
        as (rest & Heq & Hnot).
      eexists _, (first (split email 64%N)), rest.
      split; [reflexivity|]. cbn [user role name].
      rewrite <- includes_spec.
      destruct (includes email (js "admin")); repeat split;
        try congruence; try tauto; eauto.
    + tauto.
  - assert (Hinvalid : ~ (64%N ∈ email /\ 8 <= JS.length password)).
    { intros H. apply Hv in H. discriminate. }
    cbn [mbind mret Rand_bind Rand_ret Math_random fst outcome].
    split; [|split].
    + split; [intros [r Hr]; discriminate|tauto].
    + tauto.
    + reflexivity.
Qed.

(** C7. [register] of the Simulated Provider never rejects, whatever the
    three inputs; the profile has role OPERATOR and the supplied full name,
    upper-cased. *)
Theorem register_spec (email password fullName : jsstring) (g : Rng) :
  exists r,
    outcome (fst (MockAdapter.register email password fullName g)) = Fulfilled r /\
    role (user r) = OPERATOR /\
    name (user r) = toUpperCase fullName.
Proof. eexists. cbn. repeat split. Qed.

(** The two login scenarios of the specification: an administrator's address
    with a long enough password, and a password that is too short. *)
Lemma login_admin_scenario (g : Rng) :
  toUpperCase (js "admin") = js "ADMIN" ->
  exists r,
    outcome (fst (MockAdapter.login (js "admin@x.com") (js "password1") g))
      = Fulfilled r /\
    role (user r) = ADMIN /\ name (user r) = js "ADMIN".
Proof.
  intros Hup. eexists. split; [reflexivity|]. split; [reflexivity|].
  cbn [user name]. exact Hup.
Qed.

Lemma login_short_scenario (g : Rng) :
  outcome (fst (MockAdapter.login (js "bob@x.com") (js "short") g))
  = Rejected invalid_credentials.
Proof. reflexivity. Qed.

End MockAdapterProperties.

(** The first scenario run with the upper-casing of the ASCII letters. *)
Lemma login_admin_witness :
  @toUpperCase ascii_builtins (js "admin") = js "ADMIN" /\
  exists r,
    outcome (fst (MockAdapter.login (B := ascii_builtins)
                    (js "admin@x.com") (js "password1") (fun _ => half)))
      = Fulfilled r /\
    role (user r) = ADMIN /\ name (user r) = js "ADMIN".
Proof.
  split; [reflexivity|].
  apply (login_admin_scenario (B := ascii_builtins)). reflexivity.
Defined.

(** C8. [fetchLogs] of the Simulated Provider is a fixed sequence of 7
    entries, and [fetchDevices] a fixed sequence of 5 devices whose ids are
    DEV-001 to DEV-005 in that order; neither reads any state, so every call
    gives the same sequence. *)
Theorem canned_records :
  (exists ls,
     outcome MockAdapter.fetchLogs = Fulfilled ls /\
     List.length ls = 7%nat /\
     map log_id ls = map lit [1; 2; 3; 4; 5; 6; 7]) /\
  (exists ds,
     outcome MockAdapter.fetchDevices = Fulfilled ds /\
     List.length ds = 5%nat /\
     map dev_id ds =
       [js "DEV-001"; js "DEV-002"; js "DEV-003"; js "DEV-004"; js "DEV-005"]).
Proof. split; eexists; (split; [reflexivity|split; reflexivity]). Qed.

(** ** The Provider Selector *)

(** C3. [getBackend] depends on the stored flag alone: it is the Live adapter
    exactly when the stored value is the string "true", and the Mock adapter
    for every other value and for an absent entry. Whatever the flag was when
    the settings panel was rendered, [toggleBackend] leaves a storage from
    which [getBackend] resolves the other adapter. *)
Theorem getBackend_spec (ls : Storage) :
  (getBackend ls = LiveAdapter <-> ls !! flag = Some (js "true")) /\
  (getBackend ls = MockAdapter <-> ls !! flag <> Some (js "true")) /\
  (forall ls' : Storage, ls' !! flag = ls !! flag -> getBackend ls' = getBackend ls) /\
  getBackend (snd (SettingsPanel.toggleBackend (SettingsPanel.mount ls) ls))
    <> getBackend ls.
Proof.
  unfold getBackend, SettingsPanel.toggleBackend, SettingsPanel.mount,
    getItem, setItem. fold flag. cbn [snd SettingsPanel.useLive].
  repeat split.
  - case_bool_decide; [trivial|discriminate].
  - intros ->. now rewrite bool_decide_eq_true_2.
  - case_bool_decide; [discriminate|trivial].
  - intros H. now rewrite bool_decide_eq_false_2.
  - intros ls' ->. reflexivity.
  - rewrite lookup_insert_eq.
    destruct (bool_decide (ls !! flag = Some (js "true")));
      vm_compute; discriminate.
Qed.

(** X1. The resolution after a toggle is fixed by the panel's own state. *)
Lemma toggleBackend_resolves (st : SettingsPanel.State) (ls : Storage) :
  getBackend (snd (SettingsPanel.toggleBackend st ls))
  = if SettingsPanel.useLive st then MockAdapter else LiveAdapter.
Proof.
  unfold getBackend, SettingsPanel.toggleBackend, getItem, setItem.
  cbn [snd]. rewrite lookup_insert_eq.
  destruct (SettingsPanel.useLive st); reflexivity.
Qed.

(** ** Session bootstrap and logout *)

Lemma bootstrap_truthy (ls : Storage) :
  truthy (getItem ls token_key) = true ->
  App.bootstrap ls =
    {| App.storage := ls;
       App.app := {| App.view := DASHBOARD; App.user := Some App.restored;
                     App.isInitializing := false |};
       App.trace := [] |}.
Proof.
  intros H. unfold App.bootstrap, App.effect, App.load.
  cbn [App.storage]. fold token_key. now rewrite H.
Qed.

Lemma bootstrap_falsy (ls : Storage) :
  truthy (getItem ls token_key) = false ->
  App.bootstrap ls =
    {| App.storage := ls;
       App.app := {| App.view := AUTH; App.user := None;
                     App.isInitializing := false |};
       App.trace := [] |}.
Proof.
  intros H. unfold App.bootstrap, App.effect, App.load.
  cbn [App.storage]. fold token_key. now rewrite H.
Qed.

(** C4, as stated, fails for a stored token that is the empty string: the
    entry is present, [if (token)] takes the other branch, and the
    authentication screen is shown. *)
Lemma bootstrap_empty_token :
  let ls : Storage := {[ token_key := js "" ]} in
  is_Some (getItem ls token_key) /\
  App.view (App.app (App.bootstrap ls)) = AUTH /\
  App.render (App.app (App.bootstrap ls)) = App.ShowAuthScreen.
Proof.
  cbv zeta. split; [|split].
  - unfold getItem. rewrite lookup_singleton_eq. eauto.
  - rewrite bootstrap_falsy; [reflexivity|].
    unfold getItem. now rewrite lookup_singleton_eq.
  - rewrite bootstrap_falsy; [reflexivity|].
    unfold getItem. now rewrite lookup_singleton_eq.
Qed.

(** Such an entry is what [handleSubmit] stores when the Live adapter's login
    is fulfilled with an empty token. *)
Lemma empty_token_stored (f : AuthScreen.FormData) (u : UserProfile) :
  AuthScreen.hasErrors true f = false ->
  let p := App.load {[ flag := js "true" ]} in
  let response := Fulfilled {| token := js ""; user := u |} in
  let p' := fst (AuthScreen.handleSubmit true f response p) in
  App.trace p' = [Invoke LiveAdapter OpLogin] /\
  getItem (App.storage p') token_key = Some (js "") /\
  App.render (App.app (App.bootstrap (App.storage p'))) = App.ShowAuthScreen.
Proof.
  intros Hf p response p'. subst p p' response.
  unfold AuthScreen.handleSubmit. rewrite Hf. cbn [fst App.trace App.storage].
  split; [reflexivity|].
  assert (H : getItem (setItem (App.storage (App.load {[flag := js "true"]}))
                         (js "token") (js "")) token_key = Some (js "")).
  { unfold getItem, setItem. apply lookup_insert_eq. }
  split; [exact H|].
  rewrite bootstrap_falsy; [reflexivity|].
  transitivity (truthy (Some (js ""))); [f_equal; exact H|reflexivity].
Qed.

(** C4, amended. At bootstrap, a stored token that is not the empty string
    leads to the DASHBOARD view with the synthetic profile, of role OPERATOR,
    and no operation of a provider is invoked; with no stored token, or with
    the empty string stored, the AUTH view is shown, and no operation is
    invoked either. *)
Theorem bootstrap_spec (ls : Storage) :
  (forall t, getItem ls token_key = Some t -> t <> [] ->
     let p := App.bootstrap ls in
     App.view (App.app p) = DASHBOARD /\
     App.user (App.app p) = Some App.restored /\
     role App.restored = OPERATOR /\
     name App.restored = js "OPERATOR" /\
     App.render (App.app p) = App.ShowDashboardScreen App.restored /\
     List.filter is_invoke (App.trace p) = []) /\
  (getItem ls token_key = None \/ getItem ls token_key = Some [] ->
     let p := App.bootstrap ls in
     App.view (App.app p) = AUTH /\
     App.user (App.app p) = None /\
     App.render (App.app p) = App.ShowAuthScreen /\
     List.filter is_invoke (App.trace p) = []).
Proof.
  split.
  - intros t Ht Hne p. subst p. rewrite bootstrap_truthy.
    + repeat split.
    + rewrite Ht. now destruct t.
  - intros H p. subst p. rewrite bootstrap_falsy.
    + repeat split.
    + now destruct H as [-> | ->].
Qed.

(** C6. Logout removes the stored token and discards the profile; a
    bootstrap from the storage it leaves finds no token and shows the AUTH
    view. *)
Theorem handleLogout_spec (p : App.Page) :
  let p' := App.handleLogout p in
  getItem (App.storage p') token_key = None /\
  App.user (App.app p') = None /\
  App.view (App.app p') = AUTH /\
  App.view (App.app (App.bootstrap (App.storage p'))) = AUTH /\
  App.render (App.app (App.bootstrap (App.storage p'))) = App.ShowAuthScreen.
Proof.
  intros p'. subst p'.
  assert (H : getItem (App.storage (App.handleLogout p)) token_key = None).
  { unfold App.handleLogout, getItem, removeItem. cbn [App.storage].
    apply lookup_delete_eq. }
  split; [exact H|].
  rewrite bootstrap_falsy by now rewrite H.
  repeat split.
Qed.

(** ** The simulated system statistics *)

Lemma add_lit_exact_spec (base : Z) (n : nat) (q : Z) :
  add_lit_exact base n = true -> 0 <= q < Z.of_nat n ->
  add (lit base) (lit q) = lit (base + q).
Proof.
  unfold add_lit_exact. rewrite forallb_forall. intros Hall Hq.
  assert (Hin : In (Z.to_nat q) (seq 0 n)) by (apply in_seq; lia).
  apply Hall in Hin. apply bool_decide_eq_true in Hin.
  now rewrite Z2Nat.id in Hin by lia.
Qed.

(** [base + Math.floor(Math.random() * n)] for the scale [n * 2^b] of a
    binary64 constant: the double of an integer in [[base, base + n)]. *)
Lemma random_band (base n b : Z) (mc : positive) (r : number) :
  1 <= b -> Z.pos mc = n * 2 ^ b -> 2 ^ 52 < Z.pos mc < 2 ^ 53 ->
  lit n = S754_finite false mc (- b) ->
  add_lit_exact base (Z.to_nat n) = true ->
  is_random r = true ->
  in_band base (base + n) (add (lit base) (Math_floor (mul r (lit n)))).
Proof.
  intros Hb Hmc Hrange Hlit Hadd Hr. rewrite Hlit.
  destruct (random_scaled_floor n b mc r Hb Hmc Hrange Hr) as (q & Hq & ->).
  exists (base + q). split; [lia|].
  apply (add_lit_exact_spec base (Z.to_nat n)); [exact Hadd|lia].
Qed.

(** C9. Whatever [Math.random()] returns, [fetchSystemStats] of the Simulated
    Provider is fulfilled with [cpu] in [[42, 57)], [memory] in [[64, 74)],
    [network] in [[120, 170)] and [activeNodes] equal to 24. A call reads
    nothing but its own three random numbers: the result of the next call is
    the same whatever the numbers of the call before it were. *)
Theorem fetchSystemStats_spec (g : Rng) :
  (forall n, is_random (g n) = true) ->
  (exists s,
     outcome (fst (MockAdapter.fetchSystemStats g)) = Fulfilled s /\
     in_band 42 57 (cpu s) /\
     in_band 64 74 (memory s) /\
     in_band 120 170 (network s) /\
     activeNodes s = lit 24) /\
  (forall g', agree_after_first_call g g' ->
     fst (MockAdapter.fetchSystemStats (snd (MockAdapter.fetchSystemStats g')))
     = fst (MockAdapter.fetchSystemStats (snd (MockAdapter.fetchSystemStats g)))).
Proof.
  intros Hg. split.
  - eexists. split; [reflexivity|].
    cbn [cpu memory network activeNodes].
    split; [|split; [|split; [|reflexivity]]].
    + apply (random_band 42 15 49 8444249301319680);
        [lia|reflexivity|split; reflexivity|reflexivity|
         vm_compute; reflexivity|apply Hg].
    + apply (random_band 64 10 49 5629499534213120);
        [lia|reflexivity|split; reflexivity|reflexivity|
         vm_compute; reflexivity|apply Hg].
    + apply (random_band 120 50 47 7036874417766400);
        [lia|reflexivity|split; reflexivity|reflexivity|
         vm_compute; reflexivity|apply Hg].
  - intros g' Hagree.
    cbv [MockAdapter.fetchSystemStats mbind mret Rand_bind Rand_ret
         Math_random fst snd].
    pose proof (Hagree 0%nat) as H0. pose proof (Hagree 1%nat) as H1.
    pose proof (Hagree 2%nat) as H2. cbn [Nat.add] in H0, H1, H2.
    now rewrite H0, H1, H2.
Qed.

(** A supply of random numbers for C9: every call returns one half. *)
Lemma fetchSystemStats_witness :
  (forall n, is_random ((fun _ : nat => half) n) = true) /\
  ((exists s,
      outcome (fst (MockAdapter.fetchSystemStats (fun _ => half))) = Fulfilled s /\
      in_band 42 57 (cpu s) /\
      in_band 64 74 (memory s) /\
      in_band 120 170 (network s) /\
      activeNodes s = lit 24) /\
   (forall g', agree_after_first_call (fun _ => half) g' ->
      fst (MockAdapter.fetchSystemStats (snd (MockAdapter.fetchSystemStats g')))
      = fst (MockAdapter.fetchSystemStats
               (snd (MockAdapter.fetchSystemStats (fun _ => half)))))).
Proof.
  split.
  - intros n. reflexivity.
  - apply (fetchSystemStats_spec (fun _ => half)). intros n. reflexivity.
Defined.

(** The bands of C9, read with the comparisons of the language. *)
Lemma in_band_compare (lo : Z) (n : nat) (x : number) :
  band_compare_exact lo n = true ->
  in_band lo (lo + Z.of_nat n) x ->
  leb (lit lo) x = true /\ ltb x (lit (lo + Z.of_nat n)) = true.
Proof.
  unfold band_compare_exact. rewrite forallb_forall.
  intros Hall (k & Hk & ->).
  assert (Hin : In (Z.to_nat (k - lo)) (seq 0 n)) by (apply in_seq; lia).
  apply Hall in Hin. rewrite Z2Nat.id in Hin by lia.
  replace (lo + (k - lo)) with k in Hin by lia.
  now apply andb_true_iff in Hin.
Qed.

Lemma stats_bands_compare (s : SystemStats) :
  in_band 42 57 (cpu s) -> in_band 64 74 (memory s) ->
  in_band 120 170 (network s) ->
  (leb (lit 42) (cpu s) = true /\ ltb (cpu s) (lit 57) = true) /\
  (leb (lit 64) (memory s) = true /\ ltb (memory s) (lit 74) = true) /\
  (leb (lit 120) (network s) = true /\ ltb (network s) (lit 170) = true).
Proof.
  intros Hc Hm Hn. split; [|split].
  - now apply (in_band_compare 42 15).
  - now apply (in_band_compare 64 10).
  - now apply (in_band_compare 120 50).
Qed.

(** ** The polling loop *)

Section Polling.
Import DashboardScreen.




(** X2. The [catch] leaves nothing to propagate: a resumed call of [fetchData]
    suspends again or returns. *)
Lemma resume_never_throws (k : Await) (r : Settlement) (d d' : State)
    (c : Completion) :
  resume k r d = Some (d', c) -> forall e, c <> Throw e.
Proof.
  unfold resume, try_block.
  destruct k, r as [[s|e']|[l|e']]; intros H; inversion H; discriminate.
Qed.

(** A rejected stats fetch of a freshly mounted dashboard, for
    [resume_never_throws]. *)
Lemma resume_never_throws_witness :
  let d := mount ∅ in
  let e := {| err_message := js "Stats fetch failed" |} in
  resume AwaitStats (StatsSettled (Rejected e)) d
    = Some (emit (ConsoleError e) d, Return) /\
  forall e', Return <> Throw e'.
Proof.
  cbv zeta. split; [reflexivity|].
  apply (resume_never_throws AwaitStats
           (StatsSettled (Rejected {| err_message := js "Stats fetch failed" |}))
           (mount ∅)
           (emit (ConsoleError {| err_message := js "Stats fetch failed" |})
                 (mount ∅))
           Return).
  reflexivity.
Defined.




Lemma step_rejected (d : State) (i : nat) (k : Await) (e : Error) :
  pending d !! i = Some k ->
  step d (Settle i (rejection k e))
  = Some (with_pending (delete i (pending d)) (emit (ConsoleError e) d)).
Proof. intros H. cbn [step]. rewrite H. now destruct k. Qed.

Lemma step_stats_fulfilled (d : State) (i : nat) (s : SystemStats) :
  pending d !! i = Some AwaitStats ->
  step d (Settle i (StatsSettled (Fulfilled s)))
  = Some (with_pending (<[i:=AwaitLogs]> (pending d))
            (emit (Invoke (backend d) OpFetchLogs) (setStats s d))).
Proof. intros H. cbn [step]. rewrite H. reflexivity. Qed.




(** C5. When the fetch that a poll tick waits for fails, the error is caught
    inside [fetchData] and logged: the call returns instead of throwing, the
    stats and logs on display stay as they were, the interval stays
    registered, and the next tick starts a new fetch. *)
Theorem poll_failure_swallowed (d : State) (i : nat) (k : Await) (e : Error) :
  pending d !! i = Some k ->
  resume k (rejection k e) d = Some (emit (ConsoleError e) d, Return) /\
  exists d',
    step d (Settle i (rejection k e)) = Some d' /\
    stats d' = stats d /\ logs d' = logs d /\
    interval d' = interval d /\
    trace d' = trace d ++ [ConsoleError e] /\
    pending d' = delete i (pending d) /\
    (interval d = true ->
     exists d'',
       step d' Tick = Some d'' /\
       trace d'' = trace d' ++ [Invoke (backend d) OpFetchSystemStats] /\
       pending d'' = pending d' ++ [AwaitStats] /\
       stats d'' = stats d /\ logs d'' = logs d /\ interval d'' = true).
Proof.
  intros Hk. split; [now destruct k|].
  eexists. split; [now apply step_rejected|].
  cbn [with_pending emit stats logs interval trace pending].
  repeat split. intros Hint. cbn [step with_pending emit interval]. rewrite Hint.
  eexists. split; [reflexivity|]. repeat split. exact Hint.
Qed.

(** A failing first fetch of a freshly mounted dashboard, for
    [poll_failure_swallowed]. *)
Lemma poll_failure_witness :
  let d := mount ∅ in
  let e := {| err_message := js "Stats fetch failed" |} in
  pending d !! 0%nat = Some AwaitStats /\
  resume AwaitStats (rejection AwaitStats e) d
    = Some (emit (ConsoleError e) d, Return) /\
  exists d',
    step d (Settle 0 (rejection AwaitStats e)) = Some d' /\
    stats d' = stats d /\ logs d' = logs d /\
    interval d' = interval d /\
    trace d' = trace d ++ [ConsoleError e] /\
    pending d' = delete 0%nat (pending d) /\
    (interval d = true ->
     exists d'',
       step d' Tick = Some d'' /\
       trace d'' = trace d' ++ [Invoke (backend d) OpFetchSystemStats] /\
       pending d'' = pending d' ++ [AwaitStats] /\
       stats d'' = stats d /\ logs d'' = logs d /\ interval d'' = true).
Proof.
  cbv zeta. split; [reflexivity|].
  apply (poll_failure_swallowed (mount ∅) 0 AwaitStats). reflexivity.
Defined.

(** C10. A poll tick is not atomic. When the stats arrive, [setStats] is
    called before [fetchLogs] is started; if the logs then fail, the stats
    keep the new value and the logs their previous one. When the stats fail,
    neither setter is called and [fetchLogs] is not started. *)
Theorem poll_tick_not_atomic (d : State) (i : nat) (s : SystemStats)
    (e : Error) :
  pending d !! i = Some AwaitStats ->
  (exists d1 d2,
     step d (Settle i (StatsSettled (Fulfilled s))) = Some d1 /\
     trace d1 = trace d ++ [SetStats s; Invoke (backend d) OpFetchLogs] /\
     pending d1 !! i = Some AwaitLogs /\
     stats d1 = s /\ logs d1 = logs d /\
     step d1 (Settle i (LogsSettled (Rejected e))) = Some d2 /\
     trace d2 = trace d1 ++ [ConsoleError e] /\
     stats d2 = s /\ logs d2 = logs d) /\
  (exists d3,
     step d (Settle i (StatsSettled (Rejected e))) = Some d3 /\
     trace d3 = trace d ++ [ConsoleError e] /\
     stats d3 = stats d /\ logs d3 = logs d).
Proof.
  intros Hk. split.
  - assert (Hi : <[i:=AwaitLogs]> (pending d) !! i = Some AwaitLogs).
    { apply list_lookup_insert_eq. now apply lookup_lt_Some in Hk. }
    set (d1 := with_pending (<[i:=AwaitLogs]> (pending d))
                 (emit (Invoke (backend d) OpFetchLogs) (setStats s d))).
    exists d1, (with_pending (delete i (pending d1)) (emit (ConsoleError e) d1)).
    split; [now apply step_stats_fulfilled|].
    split; [cbn; now rewrite <- app_assoc|]. split; [exact Hi|].
    split; [reflexivity|]. split; [reflexivity|].
    split; [exact (step_rejected d1 i AwaitLogs e Hi)|].
    split; [reflexivity|split; reflexivity].
  - eexists. split; [exact (step_rejected d i AwaitStats e Hk)|].
    repeat split.
Qed.

(** A first poll of a freshly mounted dashboard, for
    [poll_tick_not_atomic]. *)
Lemma poll_tick_witness :
  let d := mount ∅ in
  let s := {| cpu := lit 50; memory := lit 70; network := lit 150;
              activeNodes := lit 24 |} in
  let e := {| err_message := js "Logs fetch failed" |} in
  pending d !! 0%nat = Some AwaitStats /\
  (exists d1 d2,
     step d (Settle 0 (StatsSettled (Fulfilled s))) = Some d1 /\
     trace d1 = trace d ++ [SetStats s; Invoke (backend d) OpFetchLogs] /\
     pending d1 !! 0%nat = Some AwaitLogs /\
     stats d1 = s /\ logs d1 = logs d /\
     step d1 (Settle 0 (LogsSettled (Rejected e))) = Some d2 /\
     trace d2 = trace d1 ++ [ConsoleError e] /\
     stats d2 = s /\ logs d2 = logs d) /\
  (exists d3,
     step d (Settle 0 (StatsSettled (Rejected e))) = Some d3 /\
     trace d3 = trace d ++ [ConsoleError e] /\
     stats d3 = stats d /\ logs d3 = logs d).
Proof.
  cbv zeta. split; [reflexivity|].
  apply (poll_tick_not_atomic (mount ∅) 0). reflexivity.
Defined.

End Polling.

(** ** The Remote Provider *)

Section LiveAdapterProperties.
Context {J : Json}.

Lemma answer_fulfilled {A : Type} (msg : string) (r : settled (Response A))
    (v : A) :
  LiveAdapter.answer msg r = Fulfilled v
  <-> exists res, r = Fulfilled res /\ ok res = true /\ json res = Fulfilled v.
Proof.
  unfold LiveAdapter.answer. destruct r as [res|e].
  - destruct (ok res) eqn:Hok; cbn [negb]; split.
    + intros H. now exists res.
    + intros (res' & Hres & _ & Hj). now injection Hres as <-.
    + discriminate.
    + intros (res' & Hres & Hok' & _). injection Hres as <-. congruence.
  - split; [discriminate|]. intros (res & Hres & _). discriminate.
Qed.

Lemma answer_not_ok {A : Type} (msg : string) (res : Response A) :
  ok res = false ->
  LiveAdapter.answer msg (Fulfilled res) = Rejected {| err_message := js msg |}.
Proof. intros H. unfold LiveAdapter.answer. now rewrite H. Qed.

Lemma answer_answers {A : Type} (msg : string) (req : Request) :
  answers (A := A) (fun net => LiveAdapter.answer msg (net req)) req msg.
Proof.
  intros net. split; [|split].
  - intros v. apply answer_fulfilled.
  - intros res Hres Hok. rewrite Hres. now apply answer_not_ok.
  - intros e Hres. now rewrite Hres.
Qed.

(** X3. Each of the five operations of the Live adapter is fulfilled exactly
    when [fetch] is fulfilled with an ok response whose body parses, and then
    with that body as it is. A response that is not ok is turned into the
    operation's own fixed message, whatever its status and body; a rejection
    of [fetch] itself is passed on unchanged. *)
Theorem live_answer_spec (email password fullName : jsstring) (ls : Storage) :
  answers (LiveAdapter.login email password)
    (LiveAdapter.post "/auth/login"
       [(js "email", email); (js "password", password)])
    "Login Failed" /\
  answers (LiveAdapter.register email password fullName)
    (LiveAdapter.post "/auth/register"
       [(js "email", email); (js "password", password);
        (js "full_name", fullName)])
    "Registration Failed" /\
  answers (LiveAdapter.fetchSystemStats ls)
    (LiveAdapter.get ls "/system/stats") "Stats fetch failed" /\
  answers (LiveAdapter.fetchLogs ls)
    (LiveAdapter.get ls "/system/logs") "Logs fetch failed" /\
  answers (LiveAdapter.fetchDevices ls)
    (LiveAdapter.get ls "/devices") "Devices fetch failed".
Proof.
  repeat split; apply answer_answers.
Qed.

End LiveAdapterProperties.

(** X4. With no token stored the three reads are still sent, and they are the
    requests that a stored token ["null"] gives: the header is
    ["Bearer null"]. With a token stored, the header is ["Bearer "] followed
    by that token. *)
Theorem live_read_token (ls : Storage) (path : string) :
  (getItem ls token_key = None ->
   LiveAdapter.get ls path
   = LiveAdapter.get (setItem ls token_key (js "null")) path /\
   headers (LiveAdapter.get ls path)
   = [(js "Authorization", js "Bearer null")]) /\
  (forall t, getItem ls token_key = Some t ->
   headers (LiveAdapter.get ls path)
   = [(js "Authorization", js "Bearer " ++ t)]) /\
  (forall net : Network SystemStats,
     getItem ls token_key = None ->
     LiveAdapter.fetchSystemStats ls net
     = LiveAdapter.fetchSystemStats (setItem ls token_key (js "null")) net).
Proof.
  assert (Hnull : getItem ls token_key = None ->
                  LiveAdapter.get ls path
                  = LiveAdapter.get (setItem ls token_key (js "null")) path).
  { intros H. unfold LiveAdapter.get. fold token_key. rewrite H.
    unfold getItem, setItem. now rewrite lookup_insert_eq. }
  split; [|split].
  - intros H. split; [now apply Hnull|].
    unfold LiveAdapter.get. fold token_key. now rewrite H.
  - intros t H. unfold LiveAdapter.get. fold token_key. now rewrite H.
  - intros net H. unfold LiveAdapter.fetchSystemStats.
    unfold LiveAdapter.get in *. fold token_key. rewrite H.
    unfold getItem, setItem. now rewrite lookup_insert_eq.
Qed.

(** ** The authentication form *)

Section AuthFormProperties.
Import AuthForm.

Lemma falsy_nil (s : jsstring) : AuthScreen.falsy s = true <-> s = [].
Proof. destruct s; cbn; split; congruence. Qed.

Lemma falsy_cons (s : jsstring) : AuthScreen.falsy s = false <-> s <> [].
Proof. destruct s; cbn; split; congruence. Qed.

Ltac lookup_inserts :=
  repeat first
    [ rewrite lookup_insert_eq
    | rewrite lookup_insert_ne by discriminate
    | rewrite lookup_empty ].

Lemma validate_lookups (login : bool) (f : AuthScreen.FormData) :
  validate login f !! js "email"
  = (if AuthScreen.falsy (AuthScreen.email f)
     then Some (js "REQUIRED") else None) /\
  validate login f !! js "password"
  = (if login && AuthScreen.falsy (AuthScreen.password f)
     then Some (js "REQUIRED") else None) /\
  validate login f !! js "fullName"
  = (if negb login && AuthScreen.falsy (AuthScreen.fullName f)
     then Some (js "REQUIRED") else None) /\
  validate login f !! js "confirmPassword"
  = (if negb login &&
        negb (bool_decide (AuthScreen.password f = AuthScreen.confirmPassword f))
     then Some (js "MISMATCH") else None).
Proof.
  unfold validate.
  destruct login, (AuthScreen.falsy (AuthScreen.email f)),
    (AuthScreen.falsy (AuthScreen.password f)),
    (AuthScreen.falsy (AuthScreen.fullName f)),
    (bool_decide (AuthScreen.password f = AuthScreen.confirmPassword f));
    cbn [negb andb]; repeat split; lookup_inserts; reflexivity.
Qed.

Lemma validate_empty (login : bool) (f : AuthScreen.FormData) :
  validate login f = ∅ <-> AuthScreen.hasErrors login f = false.
Proof.
  split.
  - intros Hv. destruct (validate_lookups login f) as (He & Hp & Hf & Hc).
    rewrite Hv, lookup_empty in He, Hp, Hf, Hc.
    unfold AuthScreen.hasErrors.
    destruct (AuthScreen.falsy (AuthScreen.email f)); [discriminate|].
    destruct (login && AuthScreen.falsy (AuthScreen.password f));
      [discriminate|].
    destruct login; [reflexivity|]. cbn [negb andb orb] in *.
    destruct (AuthScreen.falsy (AuthScreen.fullName f)); [discriminate|].
    destruct (bool_decide
                (AuthScreen.password f = AuthScreen.confirmPassword f));
      [reflexivity|discriminate].
  - unfold AuthScreen.hasErrors, validate. intros H.
    destruct (AuthScreen.falsy (AuthScreen.email f)); [discriminate|].
    destruct login; cbn [negb andb orb] in *.
    + now destruct (AuthScreen.falsy (AuthScreen.password f)).
    + destruct (AuthScreen.falsy (AuthScreen.fullName f)); [discriminate|].
      now destruct (bool_decide
                      (AuthScreen.password f = AuthScreen.confirmPassword f)).
Qed.

Lemma submit_proceeds (st : State) :
  snd (submit st) = negb (AuthScreen.hasErrors (isLogin st) (formData st)).
Proof.
  unfold submit.
  destruct (AuthScreen.hasErrors (isLogin st) (formData st)) eqn:Hh.
  - rewrite bool_decide_eq_false_2; [reflexivity|].
    intros Hv%validate_empty. congruence.
  - rewrite bool_decide_eq_true_2; [reflexivity|]. now apply validate_empty.
Qed.

Lemma submit_errors (st : State) :
  errors (fst (submit st)) = validate (isLogin st) (formData st).
Proof.
  unfold submit. case_bool_decide as Hv; cbn [negb fst errors]; congruence.
Qed.

Lemma hasErrors_false (login : bool) (f : AuthScreen.FormData) :
  AuthScreen.hasErrors login f = false <->
  AuthScreen.email f <> [] /\
  (login = true -> AuthScreen.password f <> []) /\
  (login = false ->
   AuthScreen.fullName f <> [] /\
   AuthScreen.password f = AuthScreen.confirmPassword f).
Proof.
  unfold AuthScreen.hasErrors.
  rewrite <- !falsy_cons.
  destruct (AuthScreen.falsy (AuthScreen.email f)),
    (AuthScreen.falsy (AuthScreen.password f)),
    (AuthScreen.falsy (AuthScreen.fullName f)), login;
    cbn [negb andb orb]; try case_bool_decide; cbn [negb];
    intuition (try congruence).
Qed.

(** X5. The adapter is called exactly when the e-mail is not empty and, to
    log in, the password is not empty or, to sign up, the name is not empty
    and the two passwords are equal. Otherwise the loading flag is untouched
    and each failing field, and no other, gets its message. *)
Theorem submit_spec (st : State) :
  let f := formData st in
  let st' := fst (submit st) in
  (snd (submit st) = true <->
   AuthScreen.email f <> [] /\
   (isLogin st = true -> AuthScreen.password f <> []) /\
   (isLogin st = false ->
    AuthScreen.fullName f <> [] /\
    AuthScreen.password f = AuthScreen.confirmPassword f)) /\
  (snd (submit st) = true -> isLoading st' = true /\ errors st' = ∅) /\
  (snd (submit st) = false ->
   isLoading st' = isLoading st /\ errors st' <> ∅) /\
  (errors st' !! js "email" = Some (js "REQUIRED")
   <-> AuthScreen.email f = []) /\
  (errors st' !! js "password" = Some (js "REQUIRED")
   <-> isLogin st = true /\ AuthScreen.password f = []) /\
  (errors st' !! js "fullName" = Some (js "REQUIRED")
   <-> isLogin st = false /\ AuthScreen.fullName f = []) /\
  (errors st' !! js "confirmPassword" = Some (js "MISMATCH")
   <-> isLogin st = false /\
       AuthScreen.password f <> AuthScreen.confirmPassword f).
Proof.
  cbv zeta.
  destruct (validate_lookups (isLogin st) (formData st)) as (He & Hp & Hf & Hc).
  rewrite submit_errors, He, Hp, Hf, Hc, submit_proceeds. clear He Hp Hf Hc.
  rewrite negb_true_iff, negb_false_iff, hasErrors_false.
  split; [reflexivity|]. split; [|split].
  - intros H%hasErrors_false. apply validate_empty in H.
    split; [|exact H]. unfold submit.
    now rewrite bool_decide_eq_true_2 by exact H.
  - intros H.
    assert (Hne : validate (isLogin st) (formData st) <> ∅).
    { intros Hv%validate_empty. congruence. }
    split; [|exact Hne]. unfold submit.
    now rewrite bool_decide_eq_false_2 by exact Hne.
  - rewrite <- !falsy_nil.
    destruct (isLogin st), (AuthScreen.falsy (AuthScreen.email (formData st))),
      (AuthScreen.falsy (AuthScreen.password (formData st))),
      (AuthScreen.falsy (AuthScreen.fullName (formData st)));
      cbn [negb andb]; try case_bool_decide; cbn [negb];
      intuition (try congruence).
Qed.



End AuthFormProperties.

Section AuthFlowProperties.
Import AuthForm.
Context {B : Builtins} {J : Json}.

(** X7. Signing up asks nothing of the password but that its confirmation
    equals it: with the Mock adapter resolved, a sign-up with a name and an
    e-mail goes through, empty password included, and the registration is
    fulfilled with role OPERATOR. *)
Theorem signup_any_password (st : State) (ls : Storage) (g : Rng)
    (net : Network AuthResponse) :
  isLogin st = false ->
  AuthScreen.fullName (formData st) <> [] ->
  AuthScreen.email (formData st) <> [] ->
  AuthScreen.password (formData st) = AuthScreen.confirmPassword (formData st) ->
  getBackend ls = MockAdapter ->
  snd (submit st) = true /\
  exists r,
    call false (formData st) ls g net = Fulfilled r /\
    role (user r) = OPERATOR /\
    email (user r) = AuthScreen.email (formData st).
Proof.
  intros Hl Hn He Hp Hb. split.
  - rewrite submit_proceeds, Hl. apply negb_true_iff, hasErrors_false.
    split; [exact He|]. split; [discriminate|]. intros _. now split.
  - unfold call. rewrite Hb. eexists. split; [reflexivity|]. now split.
Qed.

(** X8. Logging in through the Live adapter against a response that is not
    ok shows the error "Login Failed", clears the loading state and stores no
    token. *)
Theorem live_login_refused (f : AuthScreen.FormData) (p : App.Page) (g : Rng)
    (net : Network AuthResponse) (res : Response AuthResponse) :
  AuthScreen.hasErrors true f = false ->
  getBackend (App.storage p) = LiveAdapter ->
  net (LiveAdapter.post "/auth/login"
         [(js "email", AuthScreen.email f);
          (js "password", AuthScreen.password f)]) = Fulfilled res ->
  ok res = false ->
  let response := call true f (App.storage p) g net in
  let st := {| isLogin := true; isLoading := false;
               status := {| type := None; message := [] |};
               formData := f; errors := ∅ |} in
  let st' := settle response (fst (submit st)) in
  status st' = {| type := Some error; message := js "Login Failed" |} /\
  isLoading st' = false /\
  AuthScreen.handleSubmit true f response p
  = ({| App.storage := App.storage p; App.app := App.app p;
        App.trace := App.trace p ++ [Invoke LiveAdapter OpLogin] |}, None).
Proof.
  intros Hf Hb Hnet Hok response st st'.
  assert (Hr : response = Rejected {| err_message := js "Login Failed" |}).
  { subst response. unfold call. rewrite Hb. unfold LiveAdapter.login.
    cbv zeta. rewrite Hnet. unfold LiveAdapter.answer. now rewrite Hok. }
  subst st'. rewrite Hr. split; [reflexivity|]. split; [reflexivity|].
  unfold AuthScreen.handleSubmit. now rewrite Hf, Hb.
Qed.

(** X9. A login that the Mock adapter accepts stores a token that is not
    empty, so the next bootstrap restores the dashboard; but it restores the
    placeholder profile, of role OPERATOR, whatever profile the login
    returned: an address with "admin" logs in as ADMIN and is an OPERATOR
    after a reload. *)
Theorem mock_login_then_reload (f : AuthScreen.FormData) (p : App.Page)
    (g : Rng) (net : Network AuthResponse) :
  AuthScreen.hasErrors true f = false ->
  getBackend (App.storage p) = MockAdapter ->
  64%N ∈ AuthScreen.email f ->
  8 <= JS.length (AuthScreen.password f) ->
  let response := call true f (App.storage p) g net in
  let p' := fst (AuthScreen.handleSubmit true f response p) in
  exists r,
    response = Fulfilled r /\
    snd (AuthScreen.handleSubmit true f response p) = Some (user r) /\
    getItem (App.storage p') token_key = Some (token r) /\
    App.render (App.app (App.bootstrap (App.storage p')))
    = App.ShowDashboardScreen App.restored /\
    role App.restored = OPERATOR /\
    (includes (AuthScreen.email f) (js "admin") = true ->
     role (user r) = ADMIN /\ user r <> App.restored).
Proof.
  intros Hf Hb Hat Hlen response p'. subst p' response.
  unfold call. rewrite Hb. unfold MockAdapter.login.
  rewrite (proj2 (login_valid _ _) (conj Hat Hlen)).
  cbn [mbind mret Rand_bind Rand_ret Math_random fst outcome].
  eexists. split; [reflexivity|].
  unfold AuthScreen.handleSubmit. rewrite Hf, Hb. cbn [fst snd App.storage token user].
  split; [reflexivity|].
  assert (Hget : getItem
                   (setItem (App.storage p) (js "token")
                      (js "mock-jwt-token-" ++ toString36 (g 0%nat)))
                   token_key
                 = Some (js "mock-jwt-token-" ++ toString36 (g 0%nat))).
  { unfold getItem, setItem. apply lookup_insert_eq. }
  split; [exact Hget|]. split; [|split; [reflexivity|]].
  - rewrite bootstrap_truthy; [reflexivity|].
    transitivity
      (truthy (Some (js "mock-jwt-token-" ++ toString36 (g 0%nat))));
      [f_equal; exact Hget|reflexivity].
  - intros Hadmin. cbn [role]. rewrite Hadmin. split; [reflexivity|].
    intros Heq. apply (f_equal role) in Heq. cbn [role] in Heq.
    try rewrite Hadmin in Heq. discriminate.
Qed.

End AuthFlowProperties.

Lemma signup_any_password_witness :
  let st := AuthForm.handleInputChange AuthForm.Email (js "bob@x.com")
              (AuthForm.handleInputChange AuthForm.FullName (js "Bob")
                 signup_form) in
  AuthScreen.password (AuthForm.formData st) = [] /\
  snd (AuthForm.submit st) = true /\
  exists r,
    AuthForm.call (B := ascii_builtins) (J := plain_json) false
      (AuthForm.formData st) ∅ (fun _ => half) refusing = Fulfilled r /\
    role (user r) = OPERATOR /\
    email (user r) = AuthScreen.email (AuthForm.formData st).
Proof.
  cbv zeta. split; [reflexivity|].
  apply (signup_any_password (B := ascii_builtins) (J := plain_json));
    try reflexivity; discriminate.
Defined.

Lemma live_login_refused_witness :
  let p := App.load live_storage in
  let response :=
    AuthForm.call (B := ascii_builtins) (J := plain_json) true admin_form
      (App.storage p) (fun _ => half) refusing in
  let st := {| AuthForm.isLogin := true; AuthForm.isLoading := false;
               AuthForm.status := AuthForm.status AuthForm.initial;
               AuthForm.formData := admin_form; AuthForm.errors := ∅ |} in
  let st' := AuthForm.settle response (fst (AuthForm.submit st)) in
  getBackend (App.storage p) = LiveAdapter /\
  AuthForm.message (AuthForm.status st') = js "Login Failed" /\
  AuthForm.isLoading st' = false /\
  App.storage (fst (AuthScreen.handleSubmit true admin_form response p))
  = live_storage.
Proof.
  cbv zeta.
  assert (Hb : getBackend (App.storage (App.load live_storage)) = LiveAdapter)
    by reflexivity.
  split; [exact Hb|].
  destruct (live_login_refused (B := ascii_builtins) (J := plain_json)
              admin_form (App.load live_storage) (fun _ => half) refusing
              {| ok := false;
                 json := Rejected {| err_message := js "Unexpected token" |} |}
              eq_refl Hb eq_refl eq_refl) as (Hs & Hl & Hp).
  split; [exact (f_equal AuthForm.message Hs)|]. split; [exact Hl|].
  exact (f_equal (fun x => App.storage (fst x)) Hp).
Defined.

Lemma mock_login_then_reload_witness :
  let p := App.load ∅ in
  let response :=
    AuthForm.call (B := ascii_builtins) (J := plain_json) true admin_form
      (App.storage p) (fun _ => half) refusing in
  let p' := fst (AuthScreen.handleSubmit true admin_form response p) in
  (64%N ∈ AuthScreen.email admin_form) /\
  8 <= JS.length (AuthScreen.password admin_form) /\
  exists r,
    response = Fulfilled r /\
    role (user r) = ADMIN /\
    App.render (App.app (App.bootstrap (App.storage p')))
    = App.ShowDashboardScreen App.restored /\
    role App.restored = OPERATOR.
Proof.
  cbv zeta.
  assert (Hat : 64%N ∈ AuthScreen.email admin_form).
  { apply includes_unit. reflexivity. }
  assert (Hlen : 8 <= JS.length (AuthScreen.password admin_form))
    by (vm_compute; discriminate).
  assert (Hb : getBackend (App.storage (App.load ∅)) = MockAdapter)
    by (vm_compute; reflexivity).
  split; [exact Hat|]. split; [exact Hlen|].
  destruct (mock_login_then_reload (B := ascii_builtins) (J := plain_json)
              admin_form (App.load ∅) (fun _ => half) refusing
              eq_refl Hb Hat Hlen) as (r & Hr & _ & _ & Hboot & Ho & Ha).
  exists r. split; [exact Hr|]. split; [now apply Ha|]. now split.
Defined.

(** X10. Typing into an input stores the value in its field and leaves the
    other three fields as they were; the error shown under that input, if
    any, disappears, and the errors shown under the other inputs stay. *)
Theorem handleInputChange_spec (fld : AuthForm.Field) (value : jsstring)
    (st : AuthForm.State) :
  let st' := AuthForm.handleInputChange fld value st in
  AuthForm.get_field fld (AuthForm.formData st') = value /\
  AuthForm.shown_error fld st' = None /\
  (forall other, other <> fld ->
     AuthForm.get_field other (AuthForm.formData st')
     = AuthForm.get_field other (AuthForm.formData st) /\
     AuthForm.shown_error other st' = AuthForm.shown_error other st).
Proof.
  cbv zeta. unfold AuthForm.handleInputChange, AuthForm.shown_error.
  cbn [AuthForm.formData AuthForm.errors]. split; [|split].
  - now destruct fld.
  - destruct (truthy (AuthForm.errors st !! AuthForm.key fld)) eqn:Ht.
    + now rewrite lookup_insert_eq.
    + destruct (AuthForm.errors st !! AuthForm.key fld) as [[|c m]|];
        [reflexivity|discriminate|reflexivity].
  - intros other Hne.
    split; [destruct fld, other; try reflexivity; congruence|].
    destruct (truthy (AuthForm.errors st !! AuthForm.key fld)); [|reflexivity].
    rewrite lookup_insert_ne; [reflexivity|].
    destruct fld, other; try congruence; discriminate.
Qed.

(** ** The two stored entries *)

(** X11. The two stored entries do not disturb one another. Logging out
    leaves every entry but the token, so the adapter resolved afterwards is
    the same; toggling the backend leaves the token, so the reloaded page
    boots into the same view, with the same profile, as a reload without the
    toggle would. *)
Theorem stored_entries_independent (p : App.Page) (st : SettingsPanel.State)
    (ls : Storage) :
  (forall k, k <> token_key ->
     getItem (App.storage (App.handleLogout p)) k = getItem (App.storage p) k) /\
  getBackend (App.storage (App.handleLogout p)) = getBackend (App.storage p) /\
  (forall k, k <> flag ->
     getItem (snd (SettingsPanel.toggleBackend st ls)) k = getItem ls k) /\
  App.app (App.bootstrap (snd (SettingsPanel.toggleBackend st ls)))
  = App.app (App.bootstrap ls).
Proof.
  assert (H1 : forall k, k <> token_key ->
             getItem (App.storage (App.handleLogout p)) k
             = getItem (App.storage p) k).
  { intros k Hk. unfold App.handleLogout, getItem, removeItem.
    cbn [App.storage]. now apply lookup_delete_ne. }
  assert (H2 : forall k, k <> flag ->
             getItem (snd (SettingsPanel.toggleBackend st ls)) k = getItem ls k).
  { intros k Hk. unfold SettingsPanel.toggleBackend, getItem, setItem.
    cbn [snd]. now apply lookup_insert_ne. }
  split; [exact H1|]. split; [|split; [exact H2|]].
  - unfold getBackend. fold flag. now rewrite H1 by discriminate.
  - specialize (H2 token_key ltac:(discriminate)).
    destruct (truthy (getItem ls token_key)) eqn:Ht.
    + rewrite !bootstrap_truthy by (rewrite ?H2; exact Ht). reflexivity.
    + rewrite !bootstrap_falsy by (rewrite ?H2; exact Ht). reflexivity.
Qed.

(** X12. Whatever the storage held for the flag (nothing, or any string), a
    toggle leaves it holding "true" or "false"; and a second toggle, by the
    panel rendered after the reload, resolves the adapter that was resolved
    before the first. *)
Theorem toggle_twice (ls : Storage) :
  let ls1 := snd (SettingsPanel.toggleBackend (SettingsPanel.mount ls) ls) in
  let ls2 := snd (SettingsPanel.toggleBackend (SettingsPanel.mount ls1) ls1) in
  (getItem ls1 flag = Some (js "true") \/ getItem ls1 flag = Some (js "false")) /\
  getBackend ls2 = getBackend ls /\
  (getItem ls flag = Some (js "true") \/ getItem ls flag = Some (js "false") ->
   ls2 = ls).
Proof.
  cbv zeta. unfold SettingsPanel.toggleBackend, SettingsPanel.mount, getBackend,
    getItem, setItem. fold flag. cbn [snd SettingsPanel.useLive].
  rewrite !lookup_insert_eq.
  destruct (bool_decide_reflect (ls !! flag = Some (js "true"))) as [Ht|Hf];
    cbn [negb String_of_bool].
  - split; [now right|]. split; [reflexivity|]. intros _.
    rewrite insert_insert_eq. now apply insert_id.
  - split; [now left|]. split; [reflexivity|]. intros [H|H]; [contradiction|].
    rewrite insert_insert_eq. now apply insert_id.
Qed.

(** ** The password strength meter *)

Section MeterProperties.
Import PasswordStrengthMeter.

Lemma strength_sum (password : jsstring) :
  strength password
  = ((if (8 <=? JS.length password)%Z then 1 else 0)
     + (if test is_digit password then 1 else 0)
     + (if test is_special password then 1 else 0))%nat.
Proof.
  unfold strength, checks.
  now destruct (8 <=? JS.length password), (test is_digit password),
    (test is_special password).
Qed.

(** X13. For a password that is not empty the meter draws three bars: the
    first [strength] of them lit, all in one colour (the alert colour for
    strength 1, yellow for 2, the success colour for 3), the others dimmed.
    The fallback colour of [getColor] is never drawn. Nothing is drawn for
    the empty password. *)
Theorem meter_bars (password : jsstring) :
  (password = [] -> render password = None) /\
  (password <> [] ->
   exists bars,
     render password = Some bars /\
     List.length bars = 3%nat /\
     (strength password <= 3)%nat /\
     bars = repeat (getColor (strength password) 0) (strength password)
            ++ repeat (js "bg-cyber-border/30") (3 - strength password) /\
     (js "bg-cyber-border" ∉ bars) /\
     (forall c, c ∈ bars ->
        c = js "bg-cyber-alert" /\ strength password = 1%nat \/
        c = js "bg-yellow-500" /\ strength password = 2%nat \/
        c = js "bg-cyber-success" /\ strength password = 3%nat \/
        c = js "bg-cyber-border/30")).
Proof.
  split.
  - intros ->. reflexivity.
  - intros Hne. unfold render.
    destruct password as [|c0 rest]; [congruence|]. cbn [truthy negb].
    eexists. split; [reflexivity|]. rewrite strength_sum.
    destruct (8 <=? JS.length (c0 :: rest)), (test is_digit (c0 :: rest)),
      (test is_special (c0 :: rest)); vm_compute;
      (split; [reflexivity|]); (split; [lia|]); (split; [reflexivity|]);
      (split; [intros Hin; repeat (apply elem_of_cons in Hin as [Hin|Hin];
                 [discriminate|]); now apply elem_of_nil in Hin|]);
      intros c Hin;
      repeat (apply elem_of_cons in Hin as [->|Hin]; [tauto|]);
      now apply elem_of_nil in Hin.
Qed.

(** X14. Adding characters to a password, before or after it, never lowers
    its strength. *)
Theorem strength_monotone (p q : jsstring) :
  (strength p <= strength (p ++ q))%nat /\
  (strength q <= strength (p ++ q))%nat.
Proof.
  rewrite !strength_sum. unfold test, JS.length.
  rewrite !existsb_app, length_app.
  destruct (existsb is_digit p), (existsb is_digit q),
    (existsb is_special p), (existsb is_special q); cbn [orb];
    repeat match goal with
           | |- context [8 <=? ?x] => destruct (Z.leb_spec 8 x)
           end; lia.
Qed.

End MeterProperties.

(** ** The log archive *)

Lemma includes_contains (s p : jsstring) : includes s p = true <-> contains s p.
Proof. apply includes_spec. Qed.

Lemma contains_trans (s p q : jsstring) :
  contains s p -> contains p q -> contains s q.
Proof.
  intros (a & b & ->) (c & d & ->). exists (a ++ c), (d ++ b).
  now rewrite <- !app_assoc.
Qed.

Section LogsPanelProperties.
Context {L : LowerCase}.
Import LogsPanel.

Lemma filteredLogs_sublist (logs : list LogEntry) (filter : jsstring) :
  sublist (filteredLogs logs filter) logs.
Proof.
  unfold filteredLogs. induction logs as [|l logs IH]; cbn [List.filter].
  - constructor.
  - destruct (matches filter l); now constructor.
Qed.

Lemma matches_spec (filter : jsstring) (l : LogEntry) :
  matches filter l = true <->
  contains (toLowerCase (message l)) (toLowerCase filter) \/
  contains (toLowerCase (source l)) (toLowerCase filter).
Proof. unfold matches. now rewrite orb_true_iff, !includes_contains. Qed.

(** X15. The archive shows exactly the logs whose message or source, in lower
    case, contains the filter in lower case, in the order in which they were
    fetched: what is shown is a sublist of the logs. *)
Theorem filteredLogs_spec (logs : list LogEntry) (filter : jsstring) :
  (forall l, l ∈ filteredLogs logs filter <->
     l ∈ logs /\
     (contains (toLowerCase (message l)) (toLowerCase filter) \/
      contains (toLowerCase (source l)) (toLowerCase filter))) /\
  sublist (filteredLogs logs filter) logs.
Proof.
  split.
  - intros l. unfold filteredLogs.
    rewrite !list_elem_of_In, filter_In, matches_spec. reflexivity.
  - apply filteredLogs_sublist.
Qed.

(** X16. With the filter empty, as it is when the panel opens, every log is
    shown. *)
Theorem filteredLogs_empty (logs : list LogEntry) :
  toLowerCase [] = [] -> filteredLogs logs [] = logs.
Proof.
  intros H. unfold filteredLogs. induction logs as [|l logs IH];
    [reflexivity|]. cbn [List.filter].
  assert (matches [] l = true) as ->.
  { unfold matches. rewrite H. now destruct (toLowerCase (message l)). }
  now rewrite IH.
Qed.

(** X17. Extending the filter only narrows the list: when the lower-cased
    new filter contains the lower-cased old one, the logs shown for the new
    filter are those that it selects among the logs shown for the old. *)
Theorem filteredLogs_narrows (logs : list LogEntry) (old new : jsstring) :
  contains (toLowerCase new) (toLowerCase old) ->
  filteredLogs logs new = filteredLogs (filteredLogs logs old) new /\
  sublist (filteredLogs logs new) (filteredLogs logs old).
Proof.
  intros Hc.
  assert (Himp : forall l, matches new l = true -> matches old l = true).
  { intros l [H|H]%matches_spec; apply matches_spec; [left|right];
      eapply contains_trans; eassumption. }
  assert (Heq : filteredLogs logs new = filteredLogs (filteredLogs logs old) new).
  { unfold filteredLogs. induction logs as [|l logs IH]; [reflexivity|].
    cbn [List.filter]. destruct (matches new l) eqn:Hn.
    - rewrite (Himp l Hn). cbn [List.filter]. rewrite Hn. now f_equal.
    - destruct (matches old l); [cbn [List.filter]; rewrite Hn|]; exact IH. }
  split; [exact Heq|]. rewrite Heq. apply filteredLogs_sublist.
Qed.

End LogsPanelProperties.

Lemma filteredLogs_empty_witness :
  @toLowerCase ascii_lower [] = [] /\
  LogsPanel.filteredLogs (L := ascii_lower) canned_logs [] = canned_logs.
Proof.
  split; [reflexivity|].
  apply (filteredLogs_empty (L := ascii_lower)). reflexivity.
Defined.

Lemma filteredLogs_narrows_witness :
  contains (@toLowerCase ascii_lower (js "Node-04"))
           (@toLowerCase ascii_lower (js "NODE")) /\
  LogsPanel.filteredLogs (L := ascii_lower) canned_logs (js "Node-04")
  = LogsPanel.filteredLogs (L := ascii_lower)
      (LogsPanel.filteredLogs (L := ascii_lower) canned_logs (js "NODE"))
      (js "Node-04") /\
  sublist (LogsPanel.filteredLogs (L := ascii_lower) canned_logs (js "Node-04"))
          (LogsPanel.filteredLogs (L := ascii_lower) canned_logs (js "NODE")).
Proof.
  assert (Hc : contains (@toLowerCase ascii_lower (js "Node-04"))
                        (@toLowerCase ascii_lower (js "NODE"))).
  { exists [], (js "-04"). reflexivity. }
  split; [exact Hc|].
  apply (filteredLogs_narrows (L := ascii_lower)). exact Hc.
Defined.

(** ** The device fleet panel *)

(** X18. The device panel fetches once when it is rendered and stops loading
    however that fetch ends. When it is fulfilled the devices are shown as
    received. When it is rejected the table stays empty, nothing is logged,
    and the promise of the chain is rejected with the same error, which no
    handler receives. *)
Theorem devices_settle_spec (ls : Storage) (r : settled (list Device)) :
  let st := fst (DevicesPanel.settle r (DevicesPanel.mount ls)) in
  let chain := snd (DevicesPanel.settle r (DevicesPanel.mount ls)) in
  DevicesPanel.loading (DevicesPanel.mount ls) = true /\
  DevicesPanel.loading st = false /\
  DevicesPanel.trace st = [Invoke (getBackend ls) OpFetchDevices] /\
  (forall ds, r = Fulfilled ds ->
     DevicesPanel.devices st = ds /\ chain = Fulfilled tt) /\
  (forall e, r = Rejected e ->
     DevicesPanel.devices st = [] /\ chain = Rejected e).
Proof.
  cbv zeta. destruct r as [ds|e]; cbn [DevicesPanel.settle DevicesPanel.mount
    fst snd DevicesPanel.loading DevicesPanel.trace DevicesPanel.devices];
    (split; [reflexivity|]); (split; [reflexivity|]); (split; [reflexivity|]);
    split; intros x Hx; try discriminate; injection Hx as <-; now split.
Qed.

(** ** The connection test of the settings panel *)

Lemma testConnection_live (ls : Storage) (st : ConnectionTest.State) :
  ConnectionTest.useLive st = true ->
  ConnectionTest.testConnection ls st
  = ({| ConnectionTest.useLive := true;
        ConnectionTest.connectionStatus := ConnectionTest.checking |},
     Some (LiveAdapter.get ls "/system/stats")).
Proof.
  intros H. unfold ConnectionTest.testConnection. rewrite H. reflexivity.
Qed.

(** X19. In simulation mode the settings panel sends no request and its
    connection status stays idle. In live mode it sends, once rendered, the
    request of the Live adapter's [fetchSystemStats]; the status is then
    connected exactly when [fetch] was fulfilled with an ok response, and
    failed otherwise; it is never left at checking. *)
Theorem connection_test_spec {A : Type} (ls : Storage) (net : Network A) :
  let st := ConnectionTest.mounted ls net in
  (getBackend ls = MockAdapter ->
   st = ConnectionTest.initial ls /\
   ConnectionTest.connectionStatus st = ConnectionTest.idle /\
   snd (ConnectionTest.testConnection ls st) = None) /\
  (getBackend ls = LiveAdapter ->
   snd (ConnectionTest.testConnection ls (ConnectionTest.initial ls))
   = Some (LiveAdapter.get ls "/system/stats") /\
   (ConnectionTest.connectionStatus st = ConnectionTest.connected <->
    exists res, net (LiveAdapter.get ls "/system/stats") = Fulfilled res /\
                ok res = true) /\
   (ConnectionTest.connectionStatus st = ConnectionTest.failed <->
    ~ exists res, net (LiveAdapter.get ls "/system/stats") = Fulfilled res /\
                  ok res = true)) /\
  ConnectionTest.connectionStatus st <> ConnectionTest.checking.
Proof.
  cbv zeta.
  set (req := LiveAdapter.get ls "/system/stats").
  set (answered := match net req with
                   | Fulfilled res => ok res
                   | Rejected _ => false
                   end).
  assert (Hex : (exists res, net req = Fulfilled res /\ ok res = true)
                <-> answered = true).
  { subst answered. destruct (net req) as [res|e]; split.
    - now intros (res' & [= <-] & Hok).
    - intros Hok. now exists res.
    - intros (res' & [=] & _).
    - discriminate. }
  assert (Hlive : getBackend ls = LiveAdapter ->
                  ConnectionTest.mounted ls net
                  = {| ConnectionTest.useLive := true;
                       ConnectionTest.connectionStatus :=
                         if answered then ConnectionTest.connected
                         else ConnectionTest.failed |}).
  { intros Hb.
    assert (Hu : ConnectionTest.useLive (ConnectionTest.initial ls) = true).
    { unfold getBackend in Hb. unfold ConnectionTest.initial,
        SettingsPanel.mount. cbn [ConnectionTest.useLive SettingsPanel.useLive].
      destruct (bool_decide
                  (getItem ls (js "use_live_backend") = Some (js "true")));
        [reflexivity|discriminate]. }
    unfold ConnectionTest.mounted. rewrite Hu, (testConnection_live ls _ Hu).
    fold req. subst answered. unfold ConnectionTest.settle.
    destruct (net req) as [res|e]; [now destruct (ok res)|reflexivity]. }
  assert (Hmock : getBackend ls = MockAdapter ->
                  ConnectionTest.mounted ls net = ConnectionTest.initial ls /\
                  ConnectionTest.useLive (ConnectionTest.initial ls) = false).
  { unfold getBackend, ConnectionTest.mounted, ConnectionTest.initial,
      SettingsPanel.mount.
    cbn [ConnectionTest.useLive SettingsPanel.useLive].
    destruct (bool_decide
                (getItem ls (js "use_live_backend") = Some (js "true")));
      [discriminate|]. now split. }
  split; [|split].
  - intros Hb. destruct (Hmock Hb) as [-> Hu]. split; [reflexivity|].
    split; [reflexivity|]. unfold ConnectionTest.testConnection.
    now rewrite Hu.
  - intros Hb. rewrite (Hlive Hb). cbn [ConnectionTest.connectionStatus].
    split; [|split].
    + rewrite testConnection_live; [reflexivity|].
      unfold getBackend in Hb. unfold ConnectionTest.initial,
        SettingsPanel.mount. cbn [ConnectionTest.useLive SettingsPanel.useLive].
      destruct (bool_decide
                  (getItem ls (js "use_live_backend") = Some (js "true")));
        [reflexivity|discriminate].
    + rewrite Hex. destruct answered; split; congruence.
    + rewrite Hex. destruct answered; split; congruence.
  - destruct (getBackend ls) eqn:Hb.
    + destruct (Hmock eq_refl) as [-> _]. discriminate.
    + rewrite (Hlive eq_refl). cbn [ConnectionTest.connectionStatus].
      destruct answered; discriminate.
Qed.

(** ** The overview panel *)

Lemma below_alarm_spec (lo : Z) (n : nat) (x : number) :
  below_alarm lo n = true -> in_band lo (lo + Z.of_nat n) x ->
  ltb (lit 80) x = false.
Proof.
  unfold below_alarm. rewrite forallb_forall. intros Hall (k & Hk & ->).
  assert (Hin : In (Z.to_nat (k - lo)) (seq 0 n)) by (apply in_seq; lia).
  apply Hall in Hin. rewrite Z2Nat.id in Hin by lia.
  replace (lo + (k - lo)) with k in Hin by lia.
  now apply negb_true_iff in Hin.
Qed.

(** X20. With the Simulated Provider the CPU card of the overview never shows
    the bad status: it is good for the statistics the dashboard starts with
    and for every statistics [fetchSystemStats] returns. *)
Theorem overview_cpu_good (ls : Storage) (g : Rng) :
  (forall n, is_random (g n) = true) ->
  cpu_status (DashboardScreen.stats (DashboardScreen.initial ls)) = good /\
  exists s,
    outcome (fst (MockAdapter.fetchSystemStats g)) = Fulfilled s /\
    cpu_status s = good.
Proof.
  intros Hg. split; [reflexivity|]. eexists. split; [reflexivity|].
  unfold cpu_status. cbn [cpu].
  rewrite (below_alarm_spec 42 15); [reflexivity|vm_compute; reflexivity|].
  apply (random_band 42 15 49 8444249301319680);
    [lia|reflexivity|split; reflexivity|reflexivity|
     vm_compute; reflexivity|apply Hg].
Qed.

Lemma overview_cpu_good_witness :
  (forall n, is_random ((fun _ : nat => half) n) = true) /\
  exists s,
    outcome (fst (MockAdapter.fetchSystemStats (fun _ => half))) = Fulfilled s /\
    cpu_status s = good.
Proof.
  split; [intros n; reflexivity|].
  apply (overview_cpu_good ∅ (fun _ => half)). intros n. reflexivity.
Defined.

(** ** Invariants of the polling loop *)

Section PollingInvariants.
Import DashboardScreen.

Lemma run_invariant (P : State -> Prop) :
  (forall d ev d', P d -> step d ev = Some d' -> P d') ->
  forall evs d d', P d -> run d evs = Some d' -> P d'.
Proof.
  intros Hstep. induction evs as [|ev evs IH]; intros d d' HP Hrun;
    cbn [run] in Hrun.
  - now injection Hrun as <-.
  - destruct (step d ev) as [d1|] eqn:Hs; [|discriminate].
    eapply IH; [|exact Hrun]. eapply Hstep; eassumption.
Qed.

Lemma count_snoc (kind : Effect -> bool) (tr : list Effect) (e : Effect) :
  count kind (tr ++ [e]) = (count kind tr + if kind e then 1 else 0)%nat.
Proof.
  unfold count. rewrite List.filter_app, length_app. cbn [List.filter].
  now destruct (kind e).
Qed.

(** The cases of a step that resumes a suspended call. *)
Lemma step_settle_cases (d d' : State) (i : nat) (r : Settlement) :
  step d (Settle i r) = Some d' ->
  (exists s, pending d !! i = Some AwaitStats /\
     r = StatsSettled (Fulfilled s) /\
     d' = with_pending (<[i:=AwaitLogs]> (pending d))
            (emit (Invoke (backend d) OpFetchLogs) (setStats s d))) \/
  (exists l, pending d !! i = Some AwaitLogs /\
     r = LogsSettled (Fulfilled l) /\
     d' = with_pending (delete i (pending d)) (setLogs l d)) \/
  (exists k e, pending d !! i = Some k /\ r = rejection k e /\
     d' = with_pending (delete i (pending d)) (emit (ConsoleError e) d)).
Proof.
  cbn [step]. destruct (pending d !! i) as [k|] eqn:Hk; [|discriminate].
  destruct k, r as [[s|e]|[l|e]]; cbn [resume try_block]; intros H;
    try discriminate; injection H as <-.
  - left. now exists s.
  - right. right. now exists AwaitStats, e.
  - right. left. now exists l.
  - right. right. now exists AwaitLogs, e.
Qed.

Lemma accounted_step (d d' : State) (ev : Event) :
  accounted d -> step d ev = Some d' -> accounted d'.
Proof.
  unfold accounted. intros [Hsum Heq] Hstep. destruct ev as [|i r|].
  - cbn [step] in Hstep. destruct (interval d); [|discriminate].
    injection Hstep as <-. unfold fetchData, with_pending, emit.
    cbn [trace pending backend]. rewrite !count_snoc, length_app. cbn. lia.
  - apply step_settle_cases in Hstep
      as [(s & Hk & -> & ->)|[(l & Hk & -> & ->)|(k & e & Hk & -> & ->)]];
      unfold with_pending, setStats, setLogs, emit;
      cbn [trace pending backend]; rewrite !count_snoc;
      rewrite ?length_insert, ?length_delete by eauto;
      apply lookup_lt_Some in Hk; cbn; lia.
  - cbn [step] in Hstep. destruct (interval d); [|discriminate].
    injection Hstep as <-. unfold cleanup, with_interval, emit.
    cbn [trace pending]. rewrite !count_snoc. cbn. lia.
Qed.

(** X21. In every run of a mounted dashboard each request made is accounted
    for: the calls of [fetchSystemStats] and [fetchLogs] are as many as the
    calls still in flight, the [setStats] and [setLogs] calls and the errors
    logged, together; and [fetchLogs] was called once for each [setStats].
    The adapter used is the one resolved when the dashboard was rendered. *)
Theorem requests_accounted (ls : Storage) (evs : list Event) (d : State) :
  run (mount ls) evs = Some d ->
  (count is_stats_call (trace d) + count is_logs_call (trace d)
   = List.length (pending d) + count is_set_stats (trace d)
     + count is_set_logs (trace d) + count is_console_error (trace d))%nat /\
  count is_logs_call (trace d) = count is_set_stats (trace d) /\
  backend d = getBackend ls.
Proof.
  intros Hrun.
  pose proof (run_invariant
                (fun d => accounted d /\ backend d = getBackend ls)) as Hinv.
  destruct (Hinv) with (evs := evs) (d := mount ls) (d' := d)
    as [[Hsum Heq] Hb]; [| |exact Hrun|now repeat split].
  - intros d0 ev d1 [Hacc Hb] Hstep. split; [eapply accounted_step; eauto|].
    destruct ev as [|i r|].
    + cbn [step] in Hstep. destruct (interval d0); [|discriminate].
      now injection Hstep as <-.
    + apply step_settle_cases in Hstep
        as [(s & _ & _ & ->)|[(l & _ & _ & ->)|(k & e & _ & _ & ->)]];
        exact Hb.
    + cbn [step] in Hstep. destruct (interval d0); [|discriminate].
      now injection Hstep as <-.
  - split; [|reflexivity]. unfold accounted. cbn. split; reflexivity.
Qed.

Lemma requests_accounted_witness :
  let evs := [Tick; Settle 1 (StatsSettled (Fulfilled stats_a));
              Settle 0 (StatsSettled (Rejected invalid_credentials))] in
  exists d,
    run (mount ∅) evs = Some d /\
    (count is_stats_call (trace d) + count is_logs_call (trace d)
     = List.length (pending d) + count is_set_stats (trace d)
       + count is_set_logs (trace d) + count is_console_error (trace d))%nat /\
    count is_logs_call (trace d) = count is_set_stats (trace d) /\
    backend d = getBackend ∅.
Proof.
  cbv zeta. eexists. split; [reflexivity|].
  apply (requests_accounted ∅
           [Tick; Settle 1 (StatsSettled (Fulfilled stats_a));
            Settle 0 (StatsSettled (Rejected invalid_credentials))]).
  reflexivity.
Defined.





(** X23. Responses are applied in the order in which they arrive, not in the
    order of their requests: of two stats requests in flight, when the later
    one is answered first and the earlier one afterwards, the dashboard ends
    up showing the statistics of the earlier request. *)
Theorem stale_overwrite (d : State) (i j : nat) (older newer : SystemStats) :
  (i < j)%nat ->
  pending d !! i = Some AwaitStats ->
  pending d !! j = Some AwaitStats ->
  exists d1 d2,
    step d (Settle j (StatsSettled (Fulfilled newer))) = Some d1 /\
    stats d1 = newer /\
    step d1 (Settle i (StatsSettled (Fulfilled older))) = Some d2 /\
    stats d2 = older.
Proof.
  intros Hij Hi Hj.
  set (d1 := with_pending (<[j:=AwaitLogs]> (pending d))
               (emit (Invoke (backend d) OpFetchLogs) (setStats newer d))).
  assert (Hi1 : pending d1 !! i = Some AwaitStats).
  { cbn [d1 with_pending pending]. rewrite list_lookup_insert_ne by lia.
    exact Hi. }
  eexists d1, _. split; [now apply step_stats_fulfilled|].
  split; [reflexivity|]. split; [now apply step_stats_fulfilled|reflexivity].
Qed.

Lemma stale_overwrite_witness :
  exists d d1 d2,
    run (mount ∅) [Tick] = Some d /\
    step d (Settle 1 (StatsSettled (Fulfilled stats_b))) = Some d1 /\
    stats d1 = stats_b /\
    step d1 (Settle 0 (StatsSettled (Fulfilled stats_a))) = Some d2 /\
    stats d2 = stats_a.
Proof.
  destruct (stale_overwrite (fetchData (mount ∅)) 0 1 stats_a stats_b)
    as (d1 & d2 & H); [lia|reflexivity|reflexivity|].
  exists (fetchData (mount ∅)), d1, d2. split; [reflexivity|exact H].
Defined.

(** X24. A tick does not wait for the cycle before it: after [n] ticks that
    no response came between, [n + 1] stats requests are in flight, and
    nothing was written. *)
Theorem ticks_overlap (ls : Storage) (n : nat) :
  exists d,
    run (mount ls) (repeat Tick n) = Some d /\
    pending d = repeat AwaitStats (S n) /\
    count is_stats_call (trace d) = S n /\
    stats d = stats (initial ls) /\ logs d = [].
Proof.
  assert (Hgen : forall n d0 m,
             interval d0 = true -> pending d0 = repeat AwaitStats m ->
             exists d,
               run d0 (repeat Tick n) = Some d /\
               pending d = repeat AwaitStats (n + m) /\
               count is_stats_call (trace d)
               = (n + count is_stats_call (trace d0))%nat /\
               stats d = stats d0 /\ logs d = logs d0).
  { clear n. induction n as [|n IH]; intros d0 m Hint Hp.
    - exists d0. now repeat split.
    - cbn [repeat run step]. rewrite Hint.
      destruct (IH (fetchData d0) (S m)) as (d & Hrun & Hpd & Hc & Hs & Hl).
      + exact Hint.
      + unfold fetchData, with_pending, emit. cbn [pending]. rewrite Hp.
        change [AwaitStats] with (repeat AwaitStats 1).
        rewrite <- repeat_app. f_equal. lia.
      + exists d. split; [exact Hrun|]. split.
        * rewrite Hpd. f_equal. lia.
        * split; [|now split]. rewrite Hc.
          unfold fetchData, with_pending, emit. cbn [trace backend].
          rewrite count_snoc. cbn. lia. }
  destruct (Hgen n (mount ls) 1%nat eq_refl eq_refl)
    as (d & Hrun & Hp & Hc & Hs & Hl).
  exists d. split; [exact Hrun|]. split; [rewrite Hp; f_equal; lia|].
  split; [rewrite Hc; cbn; lia|]. now split.
Qed.

Lemma interval_step (d d' : State) (ev : Event) :
  step d ev = Some d' ->
  match ev with
  | Tick => interval d = true /\ interval d' = true /\
            trace d' = trace d ++ [Invoke (backend d) OpFetchSystemStats]
  | Unmount => interval d = true /\ interval d' = false /\
               trace d' = trace d ++ [ClearInterval]
  | Settle _ _ =>
      interval d' = interval d /\
      exists new, trace d' = trace d ++ new /\
                  count is_set_interval new = 0%nat /\
                  count is_clear_interval new = 0%nat
  end.
Proof.
  intros Hstep. destruct ev as [|i r|].
  - cbn [step] in Hstep. destruct (interval d) eqn:Hi; [|discriminate].
    injection Hstep as <-. now repeat split.
  - apply step_settle_cases in Hstep
      as [(s & _ & _ & ->)|[(l & _ & _ & ->)|(k & e & _ & _ & ->)]];
      (split; [reflexivity|]).
    + exists [SetStats s; Invoke (backend d) OpFetchLogs].
      split; [cbn; now rewrite <- app_assoc|]. now split.
    + exists [SetLogs l]. now repeat split.
    + exists [ConsoleError e]. now repeat split.
  - cbn [step] in Hstep. destruct (interval d) eqn:Hi; [|discriminate].
    injection Hstep as <-. now repeat split.
Qed.

Lemma count_app (kind : Effect -> bool) (tr tr' : list Effect) :
  count kind (tr ++ tr') = (count kind tr + count kind tr')%nat.
Proof. unfold count. now rewrite List.filter_app, length_app. Qed.

Lemma interval_run (evs : list Event) : forall d0 d1 : State,
  run d0 evs = Some d1 ->
  count is_set_interval (trace d0) = 1%nat ->
  count is_clear_interval (trace d0) = (if interval d0 then 0 else 1)%nat ->
  count is_set_interval (trace d1) = 1%nat /\
  (interval d1 = true <-> interval d0 = true /\ Unmount ∉ evs) /\
  count is_clear_interval (trace d1) = (if interval d1 then 0 else 1)%nat.
Proof.
  induction evs as [|ev evs IH]; intros d0 d1 Hrun Hs Hc; cbn [run] in Hrun.
  - injection Hrun as <-. split; [exact Hs|]. split; [|exact Hc].
    split; [intros H; split; [exact H|apply not_elem_of_nil]|now intros [? _]].
  - destruct (step d0 ev) as [d'|] eqn:Hstep; [|discriminate].
    pose proof (interval_step _ _ _ Hstep) as Hi.
    destruct ev as [|i r|].
    + destruct Hi as (Hi0 & Hi1 & Htr).
      destruct (IH d' d1 Hrun) as (Hs1 & Hiff & Hc1).
      * rewrite Htr, count_snoc. cbn. lia.
      * rewrite Htr, count_snoc, Hi1. rewrite Hi0 in Hc. cbn. lia.
      * split; [exact Hs1|]. split; [|exact Hc1]. rewrite Hiff, Hi0, Hi1.
        split; intros [_ H]; (split; [reflexivity|]).
        -- intros [?|?]%elem_of_cons; [discriminate|contradiction].
        -- intros ?. apply H. apply elem_of_cons. now right.
    + destruct Hi as (Hi1 & new & Htr & Hn1 & Hn2).
      destruct (IH d' d1 Hrun) as (Hs1 & Hiff & Hc1).
      * rewrite Htr, count_app. lia.
      * rewrite Htr, count_app, Hi1. lia.
      * split; [exact Hs1|]. split; [|exact Hc1]. rewrite Hiff, Hi1.
        split; intros [H0 H]; (split; [exact H0|]).
        -- intros [?|?]%elem_of_cons; [discriminate|contradiction].
        -- intros ?. apply H. apply elem_of_cons. now right.
    + destruct Hi as (Hi0 & Hi1 & Htr).
      destruct (IH d' d1 Hrun) as (Hs1 & Hiff & Hc1).
      * rewrite Htr, count_snoc. cbn. lia.
      * rewrite Htr, count_snoc, Hi1. rewrite Hi0 in Hc. cbn. lia.
      * split; [exact Hs1|]. split; [|exact Hc1]. rewrite Hiff, Hi1.
        split; [intros [? _]; discriminate|].
        intros [_ H]. exfalso. apply H. apply elem_of_cons. now left.
Qed.

(** X25. No orphaned timer: in every run of a mounted dashboard the interval
    is registered exactly once, it is live exactly as long as the view has
    not been deactivated, and it has been cleared exactly once when it is
    not. *)
Theorem interval_lifecycle (ls : Storage) (evs : list Event) (d : State) :
  run (mount ls) evs = Some d ->
  count is_set_interval (trace d) = 1%nat /\
  (interval d = true <-> Unmount ∉ evs) /\
  count is_clear_interval (trace d) = (if interval d then 0 else 1)%nat.
Proof.
  intros Hrun.
  destruct (interval_run evs (mount ls) d Hrun eq_refl eq_refl)
    as (Hs & Hiff & Hc).
  split; [exact Hs|]. split; [|exact Hc].
  rewrite Hiff. split; [now intros [_ ?]|now split].
Qed.

Lemma interval_lifecycle_witness :
  exists d,
    run (mount ∅) [Tick; Unmount; Settle 0 (StatsSettled (Fulfilled stats_a))]
    = Some d /\
    interval d = false /\
    count is_set_interval (trace d) = 1%nat /\
    count is_clear_interval (trace d) = 1%nat.
Proof.
  eexists. split; [reflexivity|]. split; [reflexivity|].
  destruct (interval_lifecycle ∅
              [Tick; Unmount; Settle 0 (StatsSettled (Fulfilled stats_a))]
              _ eq_refl) as (Hs & _ & Hc).
  split; [exact Hs|exact Hc].
Defined.

End PollingInvariants.

(** ** The session *)






